(** * IPC-chatbot: institution resolver, document QA set-up and fixed-corpus QA

    A shallow embedding of [utils/institution.py], [utils/doc_qa.py],
    [utils/ipc_bot.py] and of the handlers of [app.py] that call into them,
    followed by the properties of the specification that can be settled on
    that embedding.

    Conventions of the embedding.
    - Python [str] values are modelled by [string]; the characters are read
      as 7-bit ASCII.  Case mapping and white space follow Python on that
      range; a character above 127 is treated as a caseless, non-white,
      non-word character.
    - A Python exception is a value of [exn]; a call that may raise returns
      a [result].
    - The outside world (the HTTP fetch and the HTML parse of the page, the
      environment, the loaders, the vector store, the language model) enters
      as an explicit argument. *)

From Stdlib Require Import Bool Arith Lia List Ascii String.
Import ListNotations.

Local Open Scope string_scope.
Local Open Scope nat_scope.

(** ** Exceptions and results *)

Inductive exn : Type :=
| ValueError (msg : string)
| TypeError (msg : string)
| LoaderError (cause : string)
| EmbeddingError (cause : string)
| GenerationError (cause : string).

Inductive result (A : Type) : Type :=
| Ok (a : A)
| Raise (e : exn).

Arguments Ok {A} a.
Arguments Raise {A} e.

Definition bind {A B : Type} (r : result A) (k : A -> result B) : result B :=
  match r with
  | Ok a => k a
  | Raise e => Raise e
  end.

Notation "x <- r ;; k" := (bind r (fun x => k))
  (at level 61, r at next level, right associativity).

(** ** Python string operations

    The operations of [str] that the code uses, on ASCII text.  On that
    range they are Python's: the same white space for [split] and [strip],
    the same case mapping for [lower], [upper] and [capitalize], the same
    digits and word characters for the regular expression.  Python maps
    the case of characters beyond ASCII as well, sometimes to several
    characters; that is not modelled, and a property that rests on a law of
    the ASCII case mapping is stated for ASCII text only. *)

Module PyStr.

Definition code (c : ascii) : nat := nat_of_ascii c.

Definition is_upper (c : ascii) : bool := (65 <=? code c) && (code c <=? 90).
Definition is_lower (c : ascii) : bool := (97 <=? code c) && (code c <=? 122).
Definition is_digit (c : ascii) : bool := (48 <=? code c) && (code c <=? 57).

(** [str.isspace] on the ASCII range: TAB, LF, VT, FF, CR, FS, GS, RS, US
    and the space. *)
Definition is_space (c : ascii) : bool :=
  ((9 <=? code c) && (code c <=? 13))
  || ((28 <=? code c) && (code c <=? 32)).

(** The class [\w] of the [re] module on the ASCII range. *)
Definition is_word (c : ascii) : bool :=
  is_upper c || is_lower c || is_digit c || (code c =? 95).

Definition lower_char (c : ascii) : ascii :=
  if is_upper c then ascii_of_nat (code c + 32) else c.

Definition upper_char (c : ascii) : ascii :=
  if is_lower c then ascii_of_nat (code c - 32) else c.

Fixpoint map_chars (f : ascii -> ascii) (s : string) : string :=
  match s with
  | EmptyString => EmptyString
  | String c s' => String (f c) (map_chars f s')
  end.

(** [s.lower()] and [s.upper()]. *)
Definition lower (s : string) : string := map_chars lower_char s.
Definition upper (s : string) : string := map_chars upper_char s.

(** [w.capitalize()]: first character upper-cased, the others lower-cased. *)
Definition capitalize (w : string) : string :=
  match w with
  | EmptyString => EmptyString
  | String c w' => String (upper_char c) (lower w')
  end.

(** [s.split()] with no argument: maximal runs of non-white characters.
    [cur] is the word being read. *)
Fixpoint split_from (cur : string) (s : string) : list string :=
  match s with
  | EmptyString =>
      match cur with EmptyString => [] | _ => [cur] end
  | String c s' =>
      if is_space c then
        match cur with
        | EmptyString => split_from EmptyString s'
        | _ => cur :: split_from EmptyString s'
        end
      else split_from (cur ++ String c EmptyString) s'
  end.

Definition split (s : string) : list string := split_from EmptyString s.

(** [sep.join(ws)]. *)
Fixpoint join (sep : string) (ws : list string) : string :=
  match ws with
  | [] => EmptyString
  | [w] => w
  | w :: ws' => w ++ sep ++ join sep ws'
  end.

(** [sub in s]. *)
Fixpoint contains (sub s : string) : bool :=
  if prefix sub s then true
  else match s with
       | EmptyString => false
       | String _ s' => contains sub s'
       end.

(** [s.startswith(p)]. *)
Definition startswith (s p : string) : bool := prefix p s.

(** [s.replace(a, b)] for one-character [a] and [b]. *)
Definition replace_char (a b : ascii) (s : string) : string :=
  map_chars (fun c => if Ascii.eqb c a then b else c) s.

(** [s.split(',')]: the fields between the commas, empty ones included. *)
Fixpoint split_on_from (d : ascii) (cur : string) (s : string) : list string :=
  match s with
  | EmptyString => [cur]
  | String c s' =>
      if Ascii.eqb c d then cur :: split_on_from d EmptyString s'
      else split_on_from d (cur ++ String c EmptyString) s'
  end.

Definition split_on (d : ascii) (s : string) : list string :=
  split_on_from d EmptyString s.

Fixpoint lstrip (s : string) : string :=
  match s with
  | EmptyString => EmptyString
  | String c s' => if is_space c then lstrip s' else s
  end.

Fixpoint rstrip (s : string) : string :=
  match s with
  | EmptyString => EmptyString
  | String c s' =>
      match rstrip s' with
      | EmptyString => if is_space c then EmptyString else String c EmptyString
      | r => String c r
      end
  end.

(** [s.strip()]. *)
Definition strip (s : string) : string := rstrip (lstrip s).

Definition nonempty (s : string) : bool :=
  match s with EmptyString => false | _ => true end.

Definition newline : string := String (ascii_of_nat 10) EmptyString.

End PyStr.

(** ** [utils/institution.py] *)

Module Institution.
Import PyStr.

Record InstitutionDetails : Type := {
  name : string;
  founder : string;
  founded_year : string;
  branches : list string;
  employees : string;
  summary : string
}.

(** *** The fetched page

    What [fetch_from_wikipedia] reads off the parsed page: for each [tr] of
    the infobox the stripped text of its [th] and of its [td] when the cell
    exists, the stripped text of every [p], and so on. *)

Record Row : Type := {
  th : option string;
  td : option string
}.

Record Page : Type := {
  disambigbox : bool;               (* soup.find(id='disambigbox') found *)
  title_text : option string;       (* soup.title.text; None without title *)
  infobox : option (list Row);      (* soup.find('table', class_='infobox') *)
  paragraphs : list string;         (* get_text(strip=True) of each p *)
  firstHeading : option string      (* get_text of h1#firstHeading *)
}.

(** Outcome of [requests.get] followed by [raise_for_status] and the parse. *)
Inductive http_outcome : Type :=
| Timeout
| HTTPError
| ConnectionError
| OtherError
| Response (soup : Page).

(** *** [re.search(r'\b\d{4}\b', data_text)] *)

Definition is_word_opt (o : option ascii) : bool :=
  match o with Some c => is_word c | None => false end.

(** [\b] between two neighbouring positions ([None] past either end). *)
Definition word_boundary (a b : option ascii) : bool :=
  xorb (is_word_opt a) (is_word_opt b).

Definition head (s : string) : option ascii :=
  match s with EmptyString => None | String c _ => Some c end.

(** The pattern tried at the start of [s], [prev] being the character just
    before. *)
Definition match_year_here (prev : option ascii) (s : string) : option string :=
  match s with
  | String d1 (String d2 (String d3 (String d4 rest))) =>
      if word_boundary prev (Some d1)
         && is_digit d1 && is_digit d2 && is_digit d3 && is_digit d4
         && word_boundary (Some d4) (head rest)
      then Some (String d1 (String d2 (String d3 (String d4 EmptyString))))
      else None
  | _ => None
  end.

Fixpoint re_search_from (prev : option ascii) (s : string) : option string :=
  match match_year_here prev s with
  | Some y => Some y
  | None =>
      match s with
      | EmptyString => None
      | String c s' => re_search_from (Some c) s'
      end
  end.

Definition re_search_year (data_text : string) : option string :=
  re_search_from None data_text.

(** *** [fetch_from_wikipedia] *)

Definition normalize (institution_name : string) : string :=
  join " " (map capitalize (split institution_name)).

Definition search_term (institution_name : string) : string :=
  let normalized_search_term := normalize institution_name in
  if (upper normalized_search_term =? "JNU")%string then
    "Jawaharlal_Nehru_University"
  else if (upper normalized_search_term =? "IIT BOMBAY")%string then
    "Indian_Institute_of_Technology_Bombay"
  else if (upper normalized_search_term =? "AIIMS DELHI")%string then
    "All_India_Institute_of_Medical_Sciences,_Delhi"
  else normalized_search_term.

Definition wikipedia_url (institution_name : string) : string :=
  "https://en.wikipedia.org/wiki/"
  ++ replace_char " "%char "_"%char (search_term institution_name).

(** The [found_*] variables the infobox loop updates. *)
Record Found : Type := {
  found_founder : string;
  found_founded_year : string;
  found_branches : list string;
  found_employees : string
}.

Definition found_init : Found :=
  {| found_founder := "Not Available";
     found_founded_year := "Not Available";
     found_branches := [];
     found_employees := "Not Available" |}.

(** One iteration of [for row in infobox.find_all('tr')]. *)
Definition process_row (f : Found) (row : Row) : Found :=
  match th row, td row with
  | Some header_text, Some data_text =>
      if contains "Founder" header_text then
        {| found_founder := data_text;
           found_founded_year := found_founded_year f;
           found_branches := found_branches f;
           found_employees := found_employees f |}
      else if contains "Established" header_text
              || contains "Founded" header_text then
        {| found_founder := found_founder f;
           found_founded_year :=
             match re_search_year data_text with
             | Some y => y
             | None => data_text
             end;
           found_branches := found_branches f;
           found_employees := found_employees f |}
      else if contains "Campus" header_text
              || contains "Location" header_text
              || contains "Branches" header_text then
        let branches_raw := split_on ","%char data_text in
        {| found_founder := found_founder f;
           found_founded_year := found_founded_year f;
           found_branches :=
             (found_branches f
              ++ map strip
                   (filter (fun b => nonempty (strip b)
                                     && negb (contains "Campus" b))
                           branches_raw))%list;
           found_employees := found_employees f |}
      else if contains "Employees" header_text
              || contains "Staff" header_text then
        {| found_founder := found_founder f;
           found_founded_year := found_founded_year f;
           found_branches := found_branches f;
           found_employees := data_text |}
      else if contains "President" header_text
              || contains "Director" header_text then
        f
      else f
  | _, _ => f
  end.

Definition infobox_loop (rows : list Row) (f : Found) : Found :=
  fold_left process_row rows f.

(** The test of the summary loop on the text of a paragraph. *)
Definition keep_paragraph (text : string) : bool :=
  nonempty text
  && negb (startswith text "Coordinates:")
  && negb (contains "For other uses," text)
  && negb (contains "From Wikipedia, the free encyclopedia" text).

(** [for p in paragraphs: ...], with its [break] once four lines are held. *)
Fixpoint summary_loop (ps : list string) (summary_lines : list string)
  : list string :=
  match ps with
  | [] => summary_lines
  | text :: ps' =>
      let summary_lines' :=
        if keep_paragraph text then (summary_lines ++ [text])%list
        else summary_lines in
      if 4 <=? List.length summary_lines' then summary_lines'
      else summary_loop ps' summary_lines'
  end.

(** [list(set(found_branches))]: the distinct elements.  Python leaves their
    order unspecified; the first occurrences are kept here, in order. *)
Fixpoint dedup (l : list string) : list string :=
  match l with
  | [] => []
  | x :: l' => x :: filter (fun y => negb (String.eqb x y)) (dedup l')
  end.

(** The three [except] clauses all return [None]; so does the
    disambiguation test, also when it raises because the page has no
    title. *)
Definition fetch_from_wikipedia (http_get : string -> http_outcome)
    (institution_name : string) : option InstitutionDetails :=
  match http_get (wikipedia_url institution_name) with
  | Timeout => None
  | HTTPError => None
  | ConnectionError => None
  | OtherError => None
  | Response soup =>
      if disambigbox soup then None
      else
        match title_text soup with
        | None => None
        | Some title =>
            if contains "disambiguation" (lower title) then None
            else
              let f :=
                match infobox soup with
                | Some rows => infobox_loop rows found_init
                | None => found_init
                end in
              let summary_lines := summary_loop (paragraphs soup) [] in
              let found_summary :=
                match summary_lines with
                | [] => "No summary found."
                | _ => join newline (firstn 4 summary_lines)
                end in
              let found_name :=
                match firstHeading soup with
                | Some h1_title => h1_title
                | None => institution_name
                end in
              Some {| name := found_name;
                      founder := found_founder f;
                      founded_year := found_founded_year f;
                      branches := dedup (found_branches f);
                      employees := found_employees f;
                      summary := found_summary |}
        end
  end.

(** *** The hardcoded data *)

Definition rec_Indian_Institute_of_Technology_Bombay : InstitutionDetails :=
  {| name := "Indian Institute of Technology Bombay";
     founder := "Dr. Bhabha";
     founded_year := "1958";
     branches := ["Mumbai"];
     employees := "5000+";
     summary := "The Indian Institute of Technology Bombay (IIT Bombay) is one of India's most prestigious engineering and research institutions, established in 1958. Located in Powai, Mumbai, its sprawling campus is a hub of academic excellence and innovation. IIT Bombay is consistently ranked among the top technical universities in India and globally, attracting brilliant minds from across the country. It offers a wide array of undergraduate, postgraduate, and doctoral programs in engineering, science, humanities, and management." |}.

Definition rec_Indian_Institute_of_Science : InstitutionDetails :=
  {| name := "Indian Institute of Science";
     founder := "Jamsetji Tata";
     founded_year := "1909";
     branches := ["Bengaluru"];
     employees := "3000+";
     summary := "The Indian Institute of Science (IISc), located in Bengaluru, is India's premier institution for advanced scientific and technological research and education. It was established in 1909 with the visionary support of Jamsetji Tata and the then Maharaja of Mysore, becoming a cornerstone of India's scientific progress. IISc is internationally recognized for its rigorous academic programs, pioneering research, and significant contributions to fundamental and applied sciences. The institute offers a wide range of master's and doctoral programs in various disciplines." |}.

Definition rec_All_India_Institute_of_Medical_Sciences_Delhi : InstitutionDetails :=
  {| name := "All India Institute of Medical Sciences, Delhi";
     founder := "Government of India";
     founded_year := "1956";
     branches := ["New Delhi"];
     employees := "10000+";
     summary := "The All India Institute of Medical Sciences, New Delhi (AIIMS Delhi) stands as India's leading medical institution, established in 1956 by the Government of India. It operates as a public medical research university and hospital, setting national benchmarks for medical education, research, and patient care. AIIMS Delhi is consistently ranked as the top medical college in the country, renowned for its highly specialized clinical services and advanced research facilities. It offers comprehensive undergraduate and postgraduate medical and paramedical courses." |}.

Definition rec_Jawaharlal_Nehru_University : InstitutionDetails :=
  {| name := "Jawaharlal Nehru University";
     founder := "Government of India";
     founded_year := "1969";
     branches := ["New Delhi"];
     employees := "1200+";
     summary := "Jawaharlal Nehru University (JNU) is a public central university located in New Delhi, India. It was established in 1969 and is known for its liberal arts and social science programs. JNU is one of the leading universities in India, recognized for its research in various fields. It attracts students and faculty from across the globe." |}.

Definition rec_Stanford_University : InstitutionDetails :=
  {| name := "Stanford University";
     founder := "Leland Stanford, Jane Stanford";
     founded_year := "1885";
     branches := ["Stanford, California"];
     employees := "20000+";
     summary := "Stanford University, officially Leland Stanford Junior University, is a private research university in Stanford, California. It was founded in 1885 by Leland and Jane Stanford in memory of their son, Leland Stanford Jr. The university is known for its academic excellence, research, and proximity to Silicon Valley, fostering innovation and entrepreneurship. It offers programs in a wide range of disciplines." |}.

Definition rec_Massachusetts_Institute_of_Technology : InstitutionDetails :=
  {| name := "Massachusetts Institute of Technology";
     founder := "William Barton Rogers";
     founded_year := "1861";
     branches := ["Cambridge, Massachusetts"];
     employees := "12000+";
     summary := "The Massachusetts Institute of Technology (MIT) is a private land-grant research university in Cambridge, Massachusetts. Established in 1861, MIT is known for its cutting-edge research and education in science, engineering, and technology. It has played a key role in the development of modern technology and scientific advancements. MIT consistently ranks among the world's top universities." |}.

(** The dictionary, as the list of its items in insertion order (the order
    in which a Python [dict] is iterated). *)
Definition HARDCODED_INSTITUTION_DATA : list (string * InstitutionDetails) :=
  [ ("Indian Institute of Technology Bombay", rec_Indian_Institute_of_Technology_Bombay);
    ("Indian Institute of Science", rec_Indian_Institute_of_Science);
    ("All India Institute of Medical Sciences, Delhi", rec_All_India_Institute_of_Medical_Sciences_Delhi);
    ("Jawaharlal Nehru University", rec_Jawaharlal_Nehru_University);
    ("Stanford University", rec_Stanford_University);
    ("Massachusetts Institute of Technology", rec_Massachusetts_Institute_of_Technology) ].

(** [d.get(k)] on the items of a dictionary. *)
Fixpoint dict_get {V : Type} (items : list (string * V)) (k : string)
  : option V :=
  match items with
  | [] => None
  | (key, v) :: rest => if (k =? key)%string then Some v else dict_get rest k
  end.

(** *** [get_institution_info] *)

(** The test under which the scraped record is returned. *)
Definition complete (wiki_details : InstitutionDetails) : bool :=
  negb (summary wiki_details =? "No summary found.")%string
  && negb (founded_year wiki_details =? "Not Available")%string.

(** Step 3: [for key, details in HARDCODED_INSTITUTION_DATA.items()]. *)
Fixpoint alias_loop (items : list (string * InstitutionDetails))
    (normalized_input_name : string) : option InstitutionDetails :=
  match items with
  | [] => None
  | (key, details) :: rest =>
      if (lower normalized_input_name =? lower key)%string
         || contains (lower normalized_input_name) (lower key)
      then Some details
      else alias_loop rest normalized_input_name
  end.

Definition not_found_message (institution_name : string) : string :=
  "No data available for '" ++ institution_name
  ++ "' from web or hardcoded sources.".

(** Steps 2 and 3 and the final [raise]. *)
Definition hardcoded_fallback (institution_name normalized_input_name : string)
  : result InstitutionDetails :=
  match dict_get HARDCODED_INSTITUTION_DATA normalized_input_name with
  | Some details => Ok details
  | None =>
      match alias_loop HARDCODED_INSTITUTION_DATA normalized_input_name with
      | Some details => Ok details
      | None => Raise (ValueError (not_found_message institution_name))
      end
  end.

(** [fetch_from_wikipedia] raises nothing, so the [except ValueError] of
    step 1 has nothing to catch. *)
Definition get_institution_info (http_get : string -> http_outcome)
    (institution_name : string) : result InstitutionDetails :=
  let normalized_input_name := normalize institution_name in
  match fetch_from_wikipedia http_get normalized_input_name with
  | Some wiki_details =>
      if complete wiki_details then Ok wiki_details
      else hardcoded_fallback institution_name normalized_input_name
  | None => hardcoded_fallback institution_name normalized_input_name
  end.

End Institution.

(** ** The retrieval pipeline shared by [utils/doc_qa.py] and [utils/ipc_bot.py] *)

Module Pipeline.

(** A loaded document: its page content. *)
Definition Document : Type := string.

Inductive Loader : Type :=
| PyPDFLoader (file_path : string)
| TextLoader (file_path : string).

Record CohereEmbeddings : Type := {
  cohere_api_key : option string;
  model : string;
  truncate : string;
  user_agent : string
}.

Record FAISS : Type := {
  indexed : list Document;
  embedder : CohereEmbeddings
}.

Record Cohere : Type := {
  llm_api_key : option string;
  temperature : string
}.

Record RetrievalQA : Type := {
  llm : Cohere;
  chain_type : string;
  retriever : FAISS
}.

(** What the code asks of its libraries and of the environment.
    [loader_load] is the construction of the loader followed by its
    [load()].  The last three fields are the constructions
    [CohereEmbeddings(...)], [Cohere(...)] and
    [RetrievalQA.from_chain_type(...)]: each validates the arguments it is
    given and returns the object or raises. *)
Record World : Type := {
  getenv : string -> option string;
  loader_load : Loader -> result (list Document);
  split_documents : nat -> nat -> list Document -> list Document;
  FAISS_from_documents :
    list Document -> CohereEmbeddings -> result FAISS;
  chain_run : RetrievalQA -> string -> result string;
  CohereEmbeddings_new : CohereEmbeddings -> result CohereEmbeddings;
  Cohere_new : Cohere -> result Cohere;
  RetrievalQA_from_chain_type : RetrievalQA -> result RetrievalQA
}.

End Pipeline.

(** ** [utils/doc_qa.py] *)

Module DocQA.
Import Pipeline.

(** [if file_type == "pdf": ... else: ...] *)
Definition select_loader (file_path file_type : string) : Loader :=
  if (file_type =? "pdf")%string then PyPDFLoader file_path
  else TextLoader file_path.

(** The arguments of [CohereEmbeddings(...)] in [setup_doc_qa]. *)
Definition embeddings_arguments (w : World) : CohereEmbeddings :=
  {| cohere_api_key := getenv w "COHERE_API_KEY";
     model := "embed-english-v3.0";
     truncate := "END";
     user_agent := "legal-research-assistant" |}.

(** The arguments of [Cohere(...)] in [setup_doc_qa]. *)
Definition llm_arguments (w : World) : Cohere :=
  {| llm_api_key := getenv w "COHERE_API_KEY"; temperature := "0.7" |}.

(** The statements in the order of the source: the embeddings are built
    first, with whatever [os.getenv] returns for the key, then the file is
    loaded and split, the index is built, and last the language model and
    the chain.  The first call that raises ends the set-up. *)
Definition setup_doc_qa (w : World) (file_path file_type : string)
  : result RetrievalQA :=
  embeddings <- CohereEmbeddings_new w (embeddings_arguments w) ;;
  let loader := select_loader file_path file_type in
  documents <- loader_load w loader ;;
  let texts := split_documents w 1000 200 documents in
  db <- FAISS_from_documents w texts embeddings ;;
  llm <- Cohere_new w (llm_arguments w) ;;
  RetrievalQA_from_chain_type w
    {| llm := llm; chain_type := "stuff"; retriever := db |}.

End DocQA.

(** ** [utils/ipc_bot.py] *)

Module IpcBot.
Import Pipeline.

Definition setup_ipc_qa (w : World) (file_path : string)
  : result RetrievalQA :=
  match getenv w "COHERE_API_KEY" with
  | None | Some EmptyString =>
      Raise (ValueError "COHERE_API_KEY environment variable not set.")
  | Some key =>
      let embeddings :=
        {| cohere_api_key := Some key;
           model := "embed-english-v3.0";
           truncate := "END";
           user_agent := "langchain-app" |} in
      documents <- loader_load w (PyPDFLoader file_path) ;;
      let texts := split_documents w 1000 200 documents in
      db <- FAISS_from_documents w texts embeddings ;;
      let llm := {| llm_api_key := Some key; temperature := "0.7" |} in
      Ok {| llm := llm; chain_type := "stuff"; retriever := db |}
  end.

(** The module-level [try: ipc_qa = setup_ipc_qa() except Exception: ...
    ipc_qa = None]. *)
Definition ipc_qa (w : World) : option RetrievalQA :=
  match setup_ipc_qa w "ipc.pdf" with
  | Ok chain => Some chain
  | Raise _ => None
  end.

End IpcBot.

(** ** The handlers of [app.py] *)

Module App.
Import Pipeline.

(** What a handler shows. *)
Inductive shown : Type :=
| st_success (body : string)
| st_error (body : string).

(** [str(e)] *)
Definition str_exn (e : exn) : string :=
  match e with
  | ValueError msg => msg
  | TypeError msg => msg
  | LoaderError cause => cause
  | EmbeddingError cause => cause
  | GenerationError cause => cause
  end.

(** The expression [ipc_qa(ipc_question)]: calling [None] raises a
    [TypeError]. *)
Definition call_ipc_qa (w : World) (ipc_question : string) : result string :=
  match IpcBot.ipc_qa w with
  | None => Raise (TypeError "'NoneType' object is not callable")
  | Some chain => chain_run w chain ipc_question
  end.

(** The body of [if st.button("Get Answer")]. *)
Definition get_answer (w : World) (ipc_question : string) : shown :=
  match call_ipc_qa w ipc_question with
  | Ok answer => st_success answer
  | Raise e => st_error ("Error: " ++ str_exn e)
  end.

(** [uploaded_file.name.split(".")[-1]] *)
Definition file_type_of (uploaded_name : string) : string :=
  last (PyStr.split_on "."%char uploaded_name) EmptyString.

(** [doc_qa = setup_doc_qa(file_path, file_type=...)], outside any [try]. *)
Definition build_doc_qa (w : World) (file_path uploaded_name : string)
  : result RetrievalQA :=
  DocQA.setup_doc_qa w file_path (file_type_of uploaded_name).

End App.

(** ** The chunker of the specification *)

Module Chunker.

Record DocumentChunk : Type := {
  text : string;
  sequence_index : nat;
  source_offset : nat
}.

(** Modelled from the spec: the chunking algorithm.  The code delegates it
    to [CharacterTextSplitter(chunk_size=1000, chunk_overlap=200)] of the
    langchain library, whose source is not part of the repository.  The
    definition follows section 4.1: chunks of [chunk_size] characters, the
    start advancing by [chunk_size - overlap], the last chunk possibly
    shorter; a text shorter than [chunk_size] gives one chunk.  [fuel]
    bounds the number of chunks. *)
Fixpoint split_from (fuel : nat) (T : string) (chunk_size stride : nat)
    (start index : nat) : list DocumentChunk :=
  match fuel with
  | 0 => []
  | S fuel' =>
      let c := {| text := substring start chunk_size T;
                  sequence_index := index;
                  source_offset := start |} in
      if String.length T <=? start + chunk_size then [c]
      else c :: split_from fuel' T chunk_size stride (start + stride) (S index)
  end.

Definition split (T : string) (chunk_size overlap : nat)
  : list DocumentChunk :=
  split_from (S (String.length T)) T chunk_size (chunk_size - overlap) 0 0.

(** The chunker as the code configures it. *)
Definition chunker (T : string) : list DocumentChunk := split T 1000 200.

(** Position [p] of the text lies inside chunk [c]. *)
Definition covers (c : DocumentChunk) (p : nat) : Prop :=
  source_offset c <= p < source_offset c + String.length (text c).

End Chunker.

(** ** [app.py]: the tabs and the institution section *)

Module AppUI.
Import Institution.

(** Which of the three buttons of the navigation bar report a click. *)
Record Clicks : Type := {
  academia_clicked : bool;
  ipc_clicked : bool;
  docqa_clicked : bool
}.

(** [if "active_tab" not in st.session_state: ...]; [None] is the session
    state without the key. *)
Definition init_tab (active_tab : option string) : string :=
  match active_tab with
  | None => "Academia Insight"
  | Some tab => tab
  end.

(** [render_top_nav]: the three [if st.button(...)] in turn. *)
Definition render_top_nav (c : Clicks) (active_tab : string) : string :=
  let active_tab :=
    if academia_clicked c then "Academia Insight" else active_tab in
  let active_tab :=
    if ipc_clicked c then "IPC Chatbot" else active_tab in
  if docqa_clicked c then "Document QA" else active_tab.

(** One run of the script, up to the choice of the section. *)
Definition rerun (active_tab : option string) (c : Clicks) : option string :=
  Some (render_top_nav c (init_tab active_tab)).

Inductive section : Type :=
| AcademiaInsight
| IPCChatbot
| DocumentQA
| NoSection.

(** The [if / elif / elif] of [main] on [st.session_state.active_tab]. *)
Definition main_section (active_tab : string) : section :=
  if (active_tab =? "Academia Insight")%string then AcademiaInsight
  else if (active_tab =? "IPC Chatbot")%string then IPCChatbot
  else if (active_tab =? "Document QA")%string then DocumentQA
  else NoSection.

(** The calls that draw on the page. *)
Inductive element : Type :=
| st_subheader (body : string)
| st_write (body : string)
| st_markdown (body : string)
| st_info (body : string)
| st_error (body : string).

(** The body of [if st.button("Fetch Details")].  [employees] is a [str]
    field, so the [isinstance(employees, (int, float))] branch is not
    taken. *)
Definition fetch_details (http_get : string -> http_outcome)
    (institution_name : string) : list element :=
  match get_institution_info http_get institution_name with
  | Ok details =>
      ([ st_subheader (name details);
         st_write ("**Founder:** " ++ founder details);
         st_write ("**Year Founded:** " ++ founded_year details);
         st_markdown "**Branches:**" ]
       ++ map (fun branch => st_markdown ("- " ++ branch)) (branches details)
       ++ [ st_write ("**Employees:** " ++ employees details);
            st_markdown "**Summary:**";
            st_info (summary details) ])%list
  | Raise e => [ st_error ("Error: " ++ App.str_exn e) ]
  end.

End AppUI.

(** ** Notions used to state the properties *)

Module Notions.
Import PyStr Institution.

(** The scrape stage yields no record that passes the completeness test. *)
Definition no_accepted_record (http_get : string -> http_outcome)
    (institution_name : string) : Prop :=
  match fetch_from_wikipedia http_get (normalize institution_name) with
  | Some wiki_details => complete wiki_details = false
  | None => True
  end.

Definition char_is (p : ascii -> bool) (o : option ascii) : bool :=
  match o with Some c => p c | None => false end.

(** Position [i] of [s] starts four digits that no letter, digit or
    underscore touches on either side; [prev] is the character before
    position 0, if any. *)
Definition year_at (prev : option ascii) (s : string) (i : nat) : bool :=
  char_is is_digit (get i s) && char_is is_digit (get (i + 1) s)
  && char_is is_digit (get (i + 2) s) && char_is is_digit (get (i + 3) s)
  && negb (char_is is_word (match i with 0 => prev | S k => get k s end))
  && negb (char_is is_word (get (i + 4) s)).

(** [y] is the first four-digit number standing alone in [s]. *)
Definition is_first_year (s y : string) : Prop :=
  exists i, year_at None s i = true
            /\ (forall j, j < i -> year_at None s j = false)
            /\ y = substring i 4 s.

Definition has_no_year (s : string) : Prop :=
  forall i, year_at None s i = false.

(** The header falls in the branch that sets the founding year. *)
Definition founded_label (header_text : string) : bool :=
  negb (contains "Founder" header_text)
  && (contains "Established" header_text || contains "Founded" header_text).

(** The header carries one of the labels that the infobox loop acts on. *)
Definition listed_label (header_text : string) : bool :=
  contains "Founder" header_text
  || contains "Established" header_text || contains "Founded" header_text
  || contains "Campus" header_text || contains "Location" header_text
  || contains "Branches" header_text
  || contains "Employees" header_text || contains "Staff" header_text.

(** The row makes the loop assign [found_founded_year]. *)
Definition sets_founded_year (row : Row) : bool :=
  match th row, td row with
  | Some header_text, Some _ => founded_label header_text
  | _, _ => false
  end.

(** The first item, in insertion order, whose lower-cased key contains the
    lower-cased string [n]. *)
Definition first_containing (items : list (string * InstitutionDetails))
    (n : string) : option (string * InstitutionDetails) :=
  find (fun kv => contains (lower n) (lower (fst kv))) items.

Fixpoint all_chars (p : ascii -> bool) (s : string) : bool :=
  match s with
  | EmptyString => true
  | String c s' => p c && all_chars p s'
  end.

(** The text is made of ASCII characters: the range on which the string
    operations of [PyStr] are those of Python. *)
Definition ascii_text (s : string) : Prop :=
  all_chars (fun c => code c <? 128) s = true.

(** [v] is [key] up to the case of its letters. *)
Definition case_variant (v key : string) : Prop := lower v = lower key.

(** Some word of [key] starts with a lower-case letter. *)
Definition has_lowercase_word (key : string) : bool :=
  existsb (fun w => char_is is_lower (head w)) (split key).

(** A word as [split] yields them: not empty, free of white space. *)
Definition wordy (w : string) : bool :=
  nonempty w && all_chars (fun c => negb (is_space c)) w.

(** The exception is one raised by the embedding or the generation
    provider. *)
Definition provider_failure (e : exn) : bool :=
  match e with
  | EmbeddingError _ | GenerationError _ => true
  | _ => false
  end.

(** The tab is one of the three that [main] has a section for. *)
Definition known_tab (active_tab : string) : Prop :=
  active_tab = "Academia Insight"
  \/ active_tab = "IPC Chatbot"
  \/ active_tab = "Document QA".

(** The session state after the script has run once per element of
    [clicks], from a fresh session. *)
Definition session_after (clicks : list AppUI.Clicks) : option string :=
  fold_left AppUI.rerun clicks None.

(** What the infobox loop lets into [found_branches]. *)
Definition kept_branch (b : string) : Prop :=
  b <> "" /\ contains "Campus" b = false.

End Notions.

(** ** Sample pages and worlds *)

Module Scenarios.
Import PyStr Institution.

(** An HTTP layer on which every request fails to connect. *)
Definition offline : string -> http_outcome := fun _ => ConnectionError.

(** A page on which the scrape succeeds, and the HTTP layer serving it. *)
Definition stanford_page : Page :=
  {| disambigbox := false;
     title_text := Some "Stanford University - Wikipedia";
     infobox :=
       Some [ {| th := Some "Motto"; td := Some "Die Luft der Freiheit weht" |};
              {| th := Some "Established"; td := Some "November 11, 1885" |};
              {| th := Some "Founders"; td := Some "Leland and Jane Stanford" |};
              {| th := Some "Location"; td := Some "Stanford, California" |} ];
     paragraphs :=
       [ "";
         "Stanford University is a private research university." ];
     firstHeading := Some "Stanford University" |}.

Definition serving (soup : Page) : string -> http_outcome :=
  fun _ => Response soup.

Definition stanford_scraped : InstitutionDetails :=
  {| name := "Stanford University";
     founder := "Leland and Jane Stanford";
     founded_year := "1885";
     branches := ["Stanford"; "California"];
     employees := "Not Available";
     summary := "Stanford University is a private research university." |}.


(** A page whose one infobox row carries two labels at once. *)
Definition shadowed_row : Row :=
  {| th := Some "Founder / Established"; td := Some "1958" |}.

Definition shadowed_page : Page :=
  {| disambigbox := false;
     title_text := Some "Example - Wikipedia";
     infobox := Some [shadowed_row];
     paragraphs := ["An institute."];
     firstHeading := None |}.


(** A world in which the key is set and every library call succeeds; its
    constructions refuse a missing or empty key. *)
Definition plain_world : Pipeline.World :=
  {| Pipeline.getenv := fun _ => Some "k3y";
     Pipeline.loader_load :=
       fun l => match l with
                | Pipeline.PyPDFLoader p => Ok ["pages of " ++ p]%string
                | Pipeline.TextLoader p => Ok ["text of " ++ p]%string
                end;
     Pipeline.split_documents := fun _ _ documents => documents;
     Pipeline.FAISS_from_documents :=
       fun texts embeddings =>
         Ok {| Pipeline.indexed := texts; Pipeline.embedder := embeddings |};
     Pipeline.chain_run := fun _ question => Ok ("answer to " ++ question)%string;
     Pipeline.CohereEmbeddings_new :=
       fun arguments =>
         match Pipeline.cohere_api_key arguments with
         | Some (String _ _) => Ok arguments
         | _ => Raise (ValueError "no API key for the embeddings")
         end;
     Pipeline.Cohere_new :=
       fun arguments =>
         match Pipeline.llm_api_key arguments with
         | Some (String _ _) => Ok arguments
         | _ => Raise (ValueError "no API key for the language model")
         end;
     Pipeline.RetrievalQA_from_chain_type := fun arguments => Ok arguments |}.

(** The same world with no [COHERE_API_KEY] in the environment. *)
Definition keyless_world : Pipeline.World :=
  {| Pipeline.getenv := fun _ => None;
     Pipeline.loader_load := Pipeline.loader_load plain_world;
     Pipeline.split_documents := Pipeline.split_documents plain_world;
     Pipeline.FAISS_from_documents :=
       Pipeline.FAISS_from_documents plain_world;
     Pipeline.chain_run := Pipeline.chain_run plain_world;
     Pipeline.CohereEmbeddings_new := Pipeline.CohereEmbeddings_new plain_world;
     Pipeline.Cohere_new := Pipeline.Cohere_new plain_world;
     Pipeline.RetrievalQA_from_chain_type :=
       Pipeline.RetrievalQA_from_chain_type plain_world |}.

End Scenarios.

(** * Properties *)

(** ** Facts on the string operations *)

Module PyStrFacts.
Import PyStr.

Ltac by_cases_on_char c :=
  destruct c as [[] [] [] [] [] [] [] []]; reflexivity.

Lemma lower_char_idem (c : ascii) : lower_char (lower_char c) = lower_char c.
Proof. by_cases_on_char c. Qed.

Lemma lower_upper_char (c : ascii) : lower_char (upper_char c) = lower_char c.
Proof. by_cases_on_char c. Qed.

Lemma is_space_lower_char (c : ascii) : is_space (lower_char c) = is_space c.
Proof. by_cases_on_char c. Qed.

Lemma is_lower_upper_char (c : ascii) : is_lower (upper_char c) = false.
Proof. by_cases_on_char c. Qed.

Lemma lower_cons (c : ascii) (s : string) :
  lower (String c s) = String (lower_char c) (lower s).
Proof. reflexivity. Qed.

Lemma map_chars_app (f : ascii -> ascii) (a b : string) :
  map_chars f (a ++ b) = (map_chars f a ++ map_chars f b)%string.
Proof. induction a as [|c a IH]; simpl; [reflexivity | now rewrite IH]. Qed.

Lemma lower_app (a b : string) : lower (a ++ b) = (lower a ++ lower b)%string.
Proof. apply map_chars_app. Qed.

Lemma lower_idem (s : string) : lower (lower s) = lower s.
Proof.
  induction s as [|c s IH]; [reflexivity|].
  now rewrite !lower_cons, lower_char_idem, IH.
Qed.

Lemma lower_empty (s : string) : lower s = EmptyString -> s = EmptyString.
Proof. destruct s; [reflexivity | discriminate]. Qed.

Lemma split_from_lower (s cur : string) :
  split_from (lower cur) (lower s) = map lower (split_from cur s).
Proof.
  revert cur; induction s as [|c s IH]; intros cur.
  - destruct cur; reflexivity.
  - rewrite lower_cons. cbn [split_from].
    rewrite is_space_lower_char. destruct (is_space c).
    + destruct cur as [|d cur].
      * apply (IH EmptyString).
      * rewrite lower_cons. cbn [map]. rewrite lower_cons.
        f_equal. apply (IH EmptyString).
    + rewrite <- IH. now rewrite lower_app.
Qed.

Lemma split_lower (s : string) : split (lower s) = map lower (split s).
Proof. apply (split_from_lower s EmptyString). Qed.

Lemma lower_join (sep : string) (ws : list string) :
  lower (join sep ws) = join (lower sep) (map lower ws).
Proof.
  induction ws as [|w ws IH]; [reflexivity|].
  destruct ws as [|w' ws]; [reflexivity|].
  change (join sep (w :: w' :: ws)) with (w ++ sep ++ join sep (w' :: ws))%string.
  rewrite !lower_app, IH. reflexivity.
Qed.

Lemma lower_capitalize (w : string) : lower (capitalize w) = lower w.
Proof.
  destruct w as [|c w]; [reflexivity|].
  unfold capitalize. now rewrite !lower_cons, lower_upper_char, lower_idem.
Qed.

Lemma prefix_refl (s : string) : prefix s s = true.
Proof.
  induction s as [|c s IH]; simpl; [reflexivity|].
  now destruct (ascii_dec c c).
Qed.

Lemma contains_refl (s : string) : contains s s = true.
Proof. destruct s; cbn [contains]; now rewrite prefix_refl. Qed.

Lemma contains_empty (s : string) : contains EmptyString s = true.
Proof. destruct s; reflexivity. Qed.

End PyStrFacts.

(** ** The institution resolver *)

Module InstitutionFacts.
Import PyStr PyStrFacts Institution Notions Scenarios.

Lemma fallback_when_not_accepted http_get institution_name :
  no_accepted_record http_get institution_name ->
  get_institution_info http_get institution_name
  = hardcoded_fallback institution_name (normalize institution_name).
Proof.
  unfold no_accepted_record, get_institution_info.
  destruct (fetch_from_wikipedia http_get (normalize institution_name))
    as [w|]; [|reflexivity].
  now intros ->.
Qed.

Lemma offline_no_accepted_record institution_name :
  no_accepted_record offline institution_name.
Proof. exact I. Qed.

Lemma complete_spec (r : InstitutionDetails) :
  complete r = true
  <-> summary r <> "No summary found." /\ founded_year r <> "Not Available".
Proof.
  unfold complete. rewrite andb_true_iff, !negb_true_iff.
  now rewrite !String.eqb_neq.
Qed.

Lemma dict_get_In {V : Type} (items : list (string * V)) k v :
  dict_get items k = Some v -> In (k, v) items.
Proof.
  induction items as [|[key v'] rest IH]; simpl; [discriminate|].
  destruct (String.eqb_spec k key) as [->|_].
  - intros [= ->]. now left.
  - intros H. right. now apply IH.
Qed.

Lemma alias_loop_In items n d :
  alias_loop items n = Some d -> exists key, In (key, d) items.
Proof.
  induction items as [|[key d'] rest IH]; simpl; [discriminate|].
  destruct (_ || _).
  - intros [= ->]. exists key. now left.
  - intros H. destruct (IH H) as [k Hk]. exists k. now right.
Qed.

Lemma hardcoded_complete key d :
  In (key, d) HARDCODED_INSTITUTION_DATA -> complete d = true.
Proof.
  simpl. intros H.
  repeat (destruct H as [[= <- <-]|H]; [reflexivity|]).
  contradiction.
Qed.

Lemma hardcoded_fallback_complete institution_name n d :
  hardcoded_fallback institution_name n = Ok d -> complete d = true.
Proof.
  unfold hardcoded_fallback.
  destruct (dict_get HARDCODED_INSTITUTION_DATA n) as [d1|] eqn:E1.
  - intros [= <-]. eapply hardcoded_complete, dict_get_In, E1.
  - destruct (alias_loop HARDCODED_INSTITUTION_DATA n) as [d2|] eqn:E2;
      [|discriminate].
    intros [= <-]. destruct (alias_loop_In _ _ _ E2) as [k Hk].
    eapply hardcoded_complete, Hk.
Qed.

Lemma hardcoded_fallback_raise institution_name n e :
  hardcoded_fallback institution_name n = Raise e ->
  e = ValueError (not_found_message institution_name).
Proof.
  unfold hardcoded_fallback.
  destruct (dict_get _ _); [discriminate|].
  destruct (alias_loop _ _); [discriminate|].
  now intros [= <-].
Qed.

(** C2. When the scrape stage yields no accepted record, the normalized
    name is not a key of the hardcoded data and the alias loop finds no
    key, [get_institution_info] raises the [ValueError] whose message names
    the institution as it was given; and whatever the input and the state of
    the network, [get_institution_info] raises nothing else. *)
Theorem get_institution_info_not_found http_get institution_name :
  no_accepted_record http_get institution_name ->
  dict_get HARDCODED_INSTITUTION_DATA (normalize institution_name) = None ->
  alias_loop HARDCODED_INSTITUTION_DATA (normalize institution_name) = None ->
  get_institution_info http_get institution_name
  = Raise (ValueError
             ("No data available for '" ++ institution_name
              ++ "' from web or hardcoded sources."))
  /\ forall http_get' name' e,
       get_institution_info http_get' name' = Raise e ->
       e = ValueError (not_found_message name').
Proof.
  intros Hno Hexact Halias. split.
  - rewrite (fallback_when_not_accepted _ _ Hno).
    unfold hardcoded_fallback. now rewrite Hexact, Halias.
  - intros h n e. unfold get_institution_info.
    destruct (fetch_from_wikipedia h (normalize n)) as [w|].
    + destruct (complete w); [discriminate|].
      apply hardcoded_fallback_raise.
    + apply hardcoded_fallback_raise.
Qed.

Lemma get_institution_info_not_found_witness :
  get_institution_info offline "Fictional University of Nowhere XYZ"
  = Raise (ValueError
             "No data available for 'Fictional University of Nowhere XYZ' from web or hardcoded sources.").
Proof.
  exact (proj1 (get_institution_info_not_found offline
                  "Fictional University of Nowhere XYZ"
                  I eq_refl eq_refl)).
Defined.

(** C3. With no accepted record from the scrape stage, neither
    ["iit bombay"] nor ["IIT BOMBAY"] reaches the entry keyed
    ["Indian Institute of Technology Bombay"]: both normalize to
    ["Iit Bombay"], which is no key and whose lower-case form is a substring
    of no lower-cased key, so both calls raise the not-found [ValueError]. *)
Theorem iit_bombay_not_resolved http_get :
  no_accepted_record http_get "iit bombay" ->
  no_accepted_record http_get "IIT BOMBAY" ->
  normalize "iit bombay" = "Iit Bombay"
  /\ normalize "IIT BOMBAY" = "Iit Bombay"
  /\ contains (lower "Iit Bombay")
              (lower "Indian Institute of Technology Bombay") = false
  /\ get_institution_info http_get "iit bombay"
     = Raise (ValueError (not_found_message "iit bombay"))
  /\ get_institution_info http_get "IIT BOMBAY"
     = Raise (ValueError (not_found_message "IIT BOMBAY")).
Proof.
  intros H1 H2.
  rewrite (fallback_when_not_accepted _ _ H1).
  rewrite (fallback_when_not_accepted _ _ H2).
  repeat split; reflexivity.
Qed.

Lemma iit_bombay_not_resolved_witness :
  get_institution_info offline "iit bombay"
  = Raise (ValueError
             "No data available for 'iit bombay' from web or hardcoded sources.")
  /\ get_institution_info offline "IIT BOMBAY"
     = Raise (ValueError
                "No data available for 'IIT BOMBAY' from web or hardcoded sources.").
Proof.
  pose proof (iit_bombay_not_resolved offline I I) as H.
  split; [exact (proj1 (proj2 (proj2 (proj2 H))))
         | exact (proj2 (proj2 (proj2 (proj2 H))))].
Defined.

(** C4. A record scraped for the normalized name is what
    [get_institution_info] returns exactly when its summary is not
    ["No summary found."] and its founding year is not ["Not Available"];
    otherwise the result is that of the catalog stages on the name alone,
    in which the scraped record takes no part. *)
Theorem completeness_gate http_get institution_name wiki_details :
  fetch_from_wikipedia http_get (normalize institution_name)
  = Some wiki_details ->
  (get_institution_info http_get institution_name = Ok wiki_details
   <-> summary wiki_details <> "No summary found."
       /\ founded_year wiki_details <> "Not Available")
  /\ (~ (summary wiki_details <> "No summary found."
         /\ founded_year wiki_details <> "Not Available") ->
      get_institution_info http_get institution_name
      = hardcoded_fallback institution_name (normalize institution_name)).
Proof.
  intros Hfetch. rewrite <- complete_spec.
  unfold get_institution_info. rewrite Hfetch.
  destruct (complete wiki_details) eqn:Hc.
  - split; [tauto | intros H; now elim H].
  - split; [|reflexivity]. split; [|discriminate].
    intros H. apply hardcoded_fallback_complete in H. congruence.
Qed.

Lemma completeness_gate_witness :
  get_institution_info (serving stanford_page) "stanford university"
  = Ok stanford_scraped.
Proof.
  apply (proj1 (completeness_gate (serving stanford_page)
                  "stanford university" stanford_scraped eq_refl)).
  split; discriminate.
Defined.

(** C5. When the request for the page of the normalized name times out,
    gets an HTTP error status or cannot connect, the scrape stage returns
    no record, [get_institution_info] is the result of the catalog stages,
    and an entry found there, by its key or by the alias loop, is returned. *)
Theorem scrape_failure_falls_back http_get institution_name :
  http_get (wikipedia_url (normalize institution_name)) = Timeout
  \/ http_get (wikipedia_url (normalize institution_name)) = HTTPError
  \/ http_get (wikipedia_url (normalize institution_name)) = ConnectionError ->
  fetch_from_wikipedia http_get (normalize institution_name) = None
  /\ get_institution_info http_get institution_name
     = hardcoded_fallback institution_name (normalize institution_name)
  /\ (forall details,
        dict_get HARDCODED_INSTITUTION_DATA (normalize institution_name)
        = Some details ->
        get_institution_info http_get institution_name = Ok details)
  /\ (forall details,
        dict_get HARDCODED_INSTITUTION_DATA (normalize institution_name)
        = None ->
        alias_loop HARDCODED_INSTITUTION_DATA (normalize institution_name)
        = Some details ->
        get_institution_info http_get institution_name = Ok details).
Proof.
  intros Hnet.
  assert (Hfetch :
    fetch_from_wikipedia http_get (normalize institution_name) = None).
  { unfold fetch_from_wikipedia.
    destruct Hnet as [-> | [-> | ->]]; reflexivity. }
  assert (Hget :
    get_institution_info http_get institution_name
    = hardcoded_fallback institution_name (normalize institution_name)).
  { unfold get_institution_info. now rewrite Hfetch. }
  repeat split; try assumption.
  - intros d Hd. rewrite Hget. unfold hardcoded_fallback. now rewrite Hd.
  - intros d Hd Ha. rewrite Hget. unfold hardcoded_fallback.
    now rewrite Hd, Ha.
Qed.

Lemma scrape_failure_falls_back_witness :
  get_institution_info (fun _ => Timeout) "stanford university"
  = Ok rec_Stanford_University.
Proof.
  destruct (scrape_failure_falls_back (fun _ => Timeout)
              "stanford university" (or_introl eq_refl))
    as [_ [_ [Hexact _]]].
  exact (Hexact rec_Stanford_University eq_refl).
Defined.

(** *** The infobox rows and the founding year *)

Lemma is_digit_is_word (c : ascii) : is_digit c = true -> is_word c = true.
Proof. destruct c as [[] [] [] [] [] [] [] []]; intros H; try reflexivity; discriminate H. Qed.

Lemma year_at_shift prev c s i :
  year_at prev (String c s) (S i) = year_at (Some c) s i.
Proof. unfold year_at. destruct i; reflexivity. Qed.

Lemma match_year_here_spec prev s :
  match match_year_here prev s with
  | Some y => year_at prev s 0 = true /\ y = substring 0 4 s
  | None => year_at prev s 0 = false
  end.
Proof.
  destruct s as [|d1 [|d2 [|d3 [|d4 rest]]]]; try reflexivity.
  - unfold year_at; simpl. now rewrite ?andb_false_r.
  - unfold year_at; simpl. now rewrite ?andb_false_r.
  - unfold year_at; simpl. now rewrite ?andb_false_r.
  - unfold match_year_here, year_at, word_boundary.
    change (get 0 (String d1 (String d2 (String d3 (String d4 rest))))) with (Some d1).
    change (get (0+1) (String d1 (String d2 (String d3 (String d4 rest))))) with (Some d2).
    change (get (0+2) (String d1 (String d2 (String d3 (String d4 rest))))) with (Some d3).
    change (get (0+3) (String d1 (String d2 (String d3 (String d4 rest))))) with (Some d4).
    change (get (0+4) (String d1 (String d2 (String d3 (String d4 rest))))) with (get 0 rest).
    replace (get 0 rest) with (head rest) by (destruct rest; reflexivity).
    cbn [char_is is_word_opt].
    destruct (is_digit d1) eqn:E1; [|now rewrite ?andb_false_r; cbn].
    destruct (is_digit d2) eqn:E2; [|now rewrite ?andb_false_r; cbn].
    destruct (is_digit d3) eqn:E3; [|now rewrite ?andb_false_r; cbn].
    destruct (is_digit d4) eqn:E4; [|now rewrite ?andb_false_r; cbn].
    rewrite (is_digit_is_word _ E1), (is_digit_is_word _ E4).
    replace (char_is is_word (head rest)) with (is_word_opt (head rest))
      by (destruct rest; reflexivity).
    replace (char_is is_word prev) with (is_word_opt prev)
      by (destruct prev; reflexivity).
    destruct (is_word_opt prev), (is_word_opt (head rest)); cbn; try reflexivity.
    split; [reflexivity|].
    destruct rest; reflexivity.
Qed.

Lemma re_search_from_spec s : forall prev,
  match re_search_from prev s with
  | Some y => exists i, year_at prev s i = true
                        /\ (forall j, j < i -> year_at prev s j = false)
                        /\ y = substring i 4 s
  | None => forall i, year_at prev s i = false
  end.
Proof.
  induction s as [|c s IH]; intros prev.
  - cbn. intros i. unfold year_at. now destruct i.
  - cbn [re_search_from].
    pose proof (match_year_here_spec prev (String c s)) as H0.
    destruct (match_year_here prev (String c s)) as [y|].
    + destruct H0 as [H0 ->]. exists 0. repeat split; [assumption|]. intros j Hj; lia.
    + specialize (IH (Some c)).
      destruct (re_search_from (Some c) s) as [y|].
      * destruct IH as [i [Hi [Hlt ->]]]. exists (S i). repeat split.
        -- now rewrite year_at_shift.
        -- intros [|j] Hj; [assumption|]. rewrite year_at_shift. apply Hlt. lia.
      * intros [|i]; [assumption|]. rewrite year_at_shift. apply IH.
Qed.

Lemma year_or_raw_spec data_text :
  let v := match re_search_year data_text with
           | Some y => y
           | None => data_text
           end in
  (forall y, is_first_year data_text y -> v = y)
  /\ (has_no_year data_text -> v = data_text).
Proof.
  unfold re_search_year.
  pose proof (re_search_from_spec data_text None) as H.
  destruct (re_search_from None data_text) as [y0|]; cbn zeta.
  - destruct H as [i0 [Hi0 [Hlt0 ->]]]. split.
    + intros y [i [Hi [Hlt ->]]].
      destruct (Nat.lt_trichotomy i i0) as [Hc | [-> | Hc]].
      * rewrite (Hlt0 _ Hc) in Hi. discriminate.
      * reflexivity.
      * rewrite (Hlt _ Hc) in Hi0. discriminate.
    + intros Hno. rewrite (Hno i0) in Hi0. discriminate.
  - split; [|reflexivity].
    intros y [i [Hi _]]. rewrite (H i) in Hi. discriminate.
Qed.

Lemma process_row_keeps_year f row :
  sets_founded_year row = false ->
  found_founded_year (process_row f row) = found_founded_year f.
Proof.
  unfold sets_founded_year, founded_label, process_row.
  destruct (th row) as [h|]; [|reflexivity].
  destruct (td row) as [d|]; [|reflexivity].
  destruct (contains "Founder" h); [reflexivity|].
  destruct (contains "Established" h || contains "Founded" h);
    [discriminate|].
  intros _.
  repeat match goal with
         | |- context [if ?b then _ else _] => destruct b
         end; reflexivity.
Qed.

Lemma infobox_loop_keeps_year rows : forall f,
  existsb sets_founded_year rows = false ->
  found_founded_year (infobox_loop rows f) = found_founded_year f.
Proof.
  unfold infobox_loop.
  induction rows as [|row rows IH]; intros f; [reflexivity|].
  cbn [existsb fold_left]. intros H. apply orb_false_iff in H as [H1 H2].
  rewrite (IH _ H2). now apply process_row_keeps_year.
Qed.

(** C7, amended.  A row with both cells whose header contains
    ["Established"] or ["Founded"] and does not contain ["Founder"] sets the
    founding year to the first four-digit number standing alone in the
    value, or to the whole value when there is none, and changes no other
    field; a row without both cells, or whose header carries none of the
    labels, changes nothing; and the scraped record has the founding year
    taken from the last row that sets it. *)
Theorem founded_year_extraction :
  (forall f header_text data_text,
     founded_label header_text = true ->
     let f' :=
       process_row f {| th := Some header_text; td := Some data_text |} in
     (forall y, is_first_year data_text y -> found_founded_year f' = y)
     /\ (has_no_year data_text -> found_founded_year f' = data_text)
     /\ found_founder f' = found_founder f
     /\ found_branches f' = found_branches f
     /\ found_employees f' = found_employees f)
  /\ (forall f row,
        match th row, td row with
        | Some header_text, Some _ => listed_label header_text = false
        | _, _ => True
        end ->
        process_row f row = f)
  /\ (forall http_get institution_name soup title pre header_text data_text
             post,
        http_get (wikipedia_url institution_name) = Response soup ->
        disambigbox soup = false ->
        title_text soup = Some title ->
        contains "disambiguation" (lower title) = false ->
        infobox soup
        = Some (pre ++ {| th := Some header_text; td := Some data_text |}
                    :: post)%list ->
        founded_label header_text = true ->
        existsb sets_founded_year post = false ->
        exists r,
          fetch_from_wikipedia http_get institution_name = Some r
          /\ (forall y, is_first_year data_text y -> founded_year r = y)
          /\ (has_no_year data_text -> founded_year r = data_text)).
Proof.
  assert (Hrow : forall f header_text data_text,
             founded_label header_text = true ->
             process_row f {| th := Some header_text; td := Some data_text |}
             = {| found_founder := found_founder f;
                  found_founded_year :=
                    match re_search_year data_text with
                    | Some y => y
                    | None => data_text
                    end;
                  found_branches := found_branches f;
                  found_employees := found_employees f |}).
  { intros f h d Hl. unfold founded_label in Hl.
    apply andb_true_iff in Hl as [Hf Hl]. apply negb_true_iff in Hf.
    unfold process_row. cbn [th td]. now rewrite Hf, Hl. }
  split; [|split].
  - intros f h d Hl f'. subst f'. rewrite (Hrow _ _ _ Hl). cbn.
    destruct (year_or_raw_spec d) as [H1 H2]. auto.
  - intros f row. unfold process_row, listed_label.
    destruct (th row) as [h|]; [|reflexivity].
    destruct (td row) as [d|]; [|reflexivity].
    intros H. repeat (apply orb_false_iff in H as [H ?]).
    repeat match goal with
           | E : contains _ h = false |- _ => rewrite E; clear E
           end.
    cbn. repeat match goal with
                | |- context [if ?b then _ else _] => destruct b
                end; reflexivity.
  - intros http_get nm soup title pre h d post Hget Hdis Ht Hnd Hbox Hl Hpost.
    assert (E : found_founded_year
                  (infobox_loop
                     (pre ++ {| th := Some h; td := Some d |} :: post)
                     found_init)
                = match re_search_year d with Some y => y | None => d end).
    { unfold infobox_loop. rewrite fold_left_app. cbn [fold_left].
      fold (infobox_loop post
              (process_row (fold_left process_row pre found_init)
                 {| th := Some h; td := Some d |})).
      now rewrite (infobox_loop_keeps_year _ _ Hpost), (Hrow _ _ _ Hl). }
    unfold fetch_from_wikipedia. rewrite Hget, Hdis, Ht, Hnd, Hbox.
    eexists. split; [reflexivity|]. cbn [founded_year]. rewrite E.
    exact (year_or_raw_spec d).
Qed.

Lemma founded_year_extraction_witness :
  found_founded_year
    (process_row found_init
       {| th := Some "Established"; td := Some "November 11, 1885" |})
  = "1885".
Proof.
  apply (proj1 (proj1 founded_year_extraction found_init "Established"
                  "November 11, 1885" eq_refl) "1885").
  exists 13. split; [reflexivity|]. split; [|reflexivity].
  intros j Hj.
  do 13 (destruct j as [|j]; [reflexivity|]).
  exfalso. do 13 apply Nat.succ_lt_mono in Hj. now apply Nat.nlt_0_r in Hj.
Defined.

(** C7, as stated, fails: the header of this row contains ["Established"]
    and the first four-digit number of its value is ["1958"], yet the
    scraped record has the founding year ["Not Available"], the value having
    gone to the founder. *)
Lemma founder_label_shadows_established :
  contains "Established" "Founder / Established" = true
  /\ is_first_year "1958" "1958"
  /\ exists r,
       fetch_from_wikipedia (serving shadowed_page) "Example" = Some r
       /\ founded_year r = "Not Available"
       /\ founded_year r <> "1958"
       /\ founder r = "1958".
Proof.
  split; [reflexivity|]. split.
  - exists 0. split; [reflexivity|]. split; [|reflexivity].
    intros j Hj. now apply Nat.nlt_0_r in Hj.
  - eexists. split; [reflexivity|]. repeat split. discriminate.
Qed.


(** *** Words, [split] and [join] *)

Lemma is_space_upper_char (c : ascii) : is_space (upper_char c) = is_space c.
Proof. by_cases_on_char c. Qed.

Lemma all_chars_app p a b :
  all_chars p (a ++ b) = all_chars p a && all_chars p b.
Proof.
  induction a as [|c a IH]; [reflexivity|].
  cbn. now rewrite IH, andb_assoc.
Qed.

Lemma append_empty_r (s : string) : (s ++ EmptyString)%string = s.
Proof. induction s as [|c s IH]; cbn; [reflexivity | now rewrite IH]. Qed.

Lemma append_assoc (a b c : string) :
  ((a ++ b) ++ c)%string = (a ++ (b ++ c))%string.
Proof. induction a as [|x a IH]; cbn; [reflexivity | now rewrite IH]. Qed.

Lemma split_from_word (w : string) : forall cur s,
  all_chars (fun c => negb (is_space c)) w = true ->
  split_from cur (w ++ s) = split_from (cur ++ w) s.
Proof.
  induction w as [|c w IH]; intros cur s Hw.
  - now rewrite append_empty_r.
  - cbn in Hw. apply andb_true_iff in Hw as [Hc Hw].
    apply negb_true_iff in Hc.
    cbn [append split_from]. rewrite Hc, (IH _ _ Hw), append_assoc.
    reflexivity.
Qed.

Lemma split_join (ws : list string) :
  forallb wordy ws = true -> split (join " " ws) = ws.
Proof.
  unfold split.
  induction ws as [|w ws IH]; [reflexivity|].
  cbn [forallb]. intros H. apply andb_true_iff in H as [Hw Hws].
  unfold wordy in Hw. apply andb_true_iff in Hw as [Hne Hw].
  destruct ws as [|w' ws].
  - cbn [join].
    transitivity (split_from EmptyString (w ++ EmptyString));
      [now rewrite append_empty_r|].
    rewrite (split_from_word _ _ _ Hw). cbn [append split_from]. destruct w; [discriminate Hne | reflexivity].
  - change (join " " (w :: w' :: ws))
      with (w ++ " " ++ join " " (w' :: ws))%string.
    rewrite (split_from_word _ _ _ Hw). cbn [append].
    change (split_from w (String " " (join " " (w' :: ws))))
      with (match w with
            | EmptyString => split_from EmptyString (join " " (w' :: ws))
            | _ => w :: split_from EmptyString (join " " (w' :: ws))
            end).
    rewrite (IH Hws). destruct w; [discriminate Hne | reflexivity].
Qed.

Lemma split_from_wordy (s : string) : forall cur,
  all_chars (fun c => negb (is_space c)) cur = true ->
  forallb wordy (split_from cur s) = true.
Proof.
  induction s as [|c s IH]; intros cur Hcur.
  - destruct cur; [reflexivity|]. cbn [split_from forallb].
    unfold wordy. now rewrite Hcur.
  - cbn [split_from]. destruct (is_space c) eqn:Hc.
    + destruct cur as [|d cur]; [now apply IH|].
      cbn [forallb]. unfold wordy at 1. rewrite Hcur. cbn. now apply IH.
    + apply IH. rewrite all_chars_app, Hcur. cbn. now rewrite Hc.
Qed.

Lemma all_chars_lower_nonspace (w : string) :
  all_chars (fun c => negb (is_space c)) (lower w)
  = all_chars (fun c => negb (is_space c)) w.
Proof.
  induction w as [|c w IH]; [reflexivity|].
  rewrite lower_cons. cbn. now rewrite is_space_lower_char, IH.
Qed.

Lemma wordy_capitalize (w : string) : wordy w = true -> wordy (capitalize w) = true.
Proof.
  destruct w as [|c w]; [discriminate|].
  unfold wordy, capitalize. cbn.
  now rewrite is_space_upper_char, all_chars_lower_nonspace.
Qed.

Lemma capitalized_words (v : string) :
  split (normalize v) = map capitalize (split v).
Proof.
  unfold normalize. apply split_join.
  assert (H : forallb wordy (split v) = true)
    by (apply split_from_wordy; reflexivity).
  induction (split v) as [|w ws IH]; [reflexivity|].
  cbn in *. apply andb_true_iff in H as [Hw Hws].
  now rewrite (wordy_capitalize _ Hw), (IH Hws).
Qed.

Lemma normalize_no_lowercase_word (v : string) :
  has_lowercase_word (normalize v) = false.
Proof.
  unfold has_lowercase_word. rewrite capitalized_words.
  induction (split v) as [|w ws IH]; [reflexivity|].
  cbn [map existsb]. rewrite IH, orb_false_r.
  destruct w as [|c w]; [reflexivity|]. cbn. apply is_lower_upper_char.
Qed.

Lemma lower_normalize (v : string) :
  lower (normalize v) = join " " (split (lower v)).
Proof.
  unfold normalize. rewrite lower_join, map_map, split_lower.
  f_equal. apply map_ext, lower_capitalize.
Qed.

(** *** The catalog stages *)

Lemma alias_loop_first_containing items n :
  alias_loop items n = option_map snd (first_containing items n).
Proof.
  unfold first_containing.
  induction items as [|[key d] rest IH]; [reflexivity|].
  cbn [alias_loop find fst].
  destruct (String.eqb_spec (lower n) (lower key)) as [->|_].
  - now rewrite contains_refl.
  - cbn [orb]. destruct (contains (lower n) (lower key)); [reflexivity|].
    exact IH.
Qed.

Lemma exact_match_is_first_containing n d :
  dict_get HARDCODED_INSTITUTION_DATA n = Some d ->
  exists key, first_containing HARDCODED_INSTITUTION_DATA n = Some (key, d).
Proof.
  unfold HARDCODED_INSTITUTION_DATA. cbn [dict_get].
  repeat match goal with
         | |- context [String.eqb n ?k] =>
             destruct (String.eqb_spec n k) as [->|_];
             [intros E; injection E as <-; eexists; vm_compute; reflexivity|]
         end.
  intros E; discriminate E.
Qed.

Lemma split_from_blank (s : string) :
  all_chars is_space s = true -> split_from EmptyString s = [].
Proof.
  induction s as [|c s IH]; [reflexivity|].
  cbn. intros H. apply andb_true_iff in H as [Hc Hs]. now rewrite Hc, IH.
Qed.

(** C9. With no accepted record from the scrape stage, the input resolves
    to the first item of the hardcoded data, in insertion order, whose
    lower-cased key contains the lower-cased normalized input; an empty or
    blank input therefore resolves to the first item of all,
    ["Indian Institute of Technology Bombay"]. *)
Theorem substring_alias_resolution http_get institution_name :
  no_accepted_record http_get institution_name ->
  (forall key details,
     first_containing HARDCODED_INSTITUTION_DATA (normalize institution_name)
     = Some (key, details) ->
     get_institution_info http_get institution_name = Ok details)
  /\ (all_chars is_space institution_name = true ->
      get_institution_info http_get institution_name
      = Ok rec_Indian_Institute_of_Technology_Bombay
      /\ hd_error HARDCODED_INSTITUTION_DATA
         = Some ("Indian Institute of Technology Bombay",
                 rec_Indian_Institute_of_Technology_Bombay)).
Proof.
  intros Hno. rewrite (fallback_when_not_accepted _ _ Hno). split.
  - intros key details Hfirst. unfold hardcoded_fallback.
    destruct (dict_get HARDCODED_INSTITUTION_DATA (normalize institution_name))
      as [d|] eqn:E.
    + destruct (exact_match_is_first_containing _ _ E) as [k Hk].
      congruence.
    + now rewrite alias_loop_first_containing, Hfirst.
  - intros Hblank. split; [|reflexivity].
    unfold normalize, split. now rewrite (split_from_blank _ Hblank).
Qed.

Lemma substring_alias_resolution_witness :
  get_institution_info offline "   "
  = Ok rec_Indian_Institute_of_Technology_Bombay
  /\ get_institution_info offline "nehru" = Ok rec_Jawaharlal_Nehru_University.
Proof.
  split.
  - exact (proj1 (proj2 (substring_alias_resolution offline "   " I) eq_refl)).
  - exact (proj1 (substring_alias_resolution offline "nehru" I)
             "Jawaharlal Nehru University" rec_Jawaharlal_Nehru_University
             eq_refl).
Defined.

Ltac each_item H :=
  unfold HARDCODED_INSTITUTION_DATA in H; cbn [In] in H;
  repeat (destruct H as [H|H]; [injection H as <- <-|]);
  [..|contradiction].

Lemma hardcoded_keys_differ_in_lower k1 d1 k2 d2 :
  In (k1, d1) HARDCODED_INSTITUTION_DATA ->
  In (k2, d2) HARDCODED_INSTITUTION_DATA ->
  lower k1 = lower k2 -> k1 = k2 /\ d1 = d2.
Proof.
  intros H1 H2. each_item H1; each_item H2;
    vm_compute; intros E; try discriminate E; split; reflexivity.
Qed.

Lemma hardcoded_keys_single_spaced k d :
  In (k, d) HARDCODED_INSTITUTION_DATA ->
  join " " (split (lower k)) = lower k.
Proof. intros H. each_item H; vm_compute; reflexivity. Qed.

Lemma hardcoded_key_first_containing k d :
  In (k, d) HARDCODED_INSTITUTION_DATA ->
  find (fun kv => contains (lower k) (lower (fst kv)))
       HARDCODED_INSTITUTION_DATA
  = Some (k, d).
Proof. intros H. each_item H; vm_compute; reflexivity. Qed.

Lemma lower_normalize_variant v key d :
  In (key, d) HARDCODED_INSTITUTION_DATA ->
  case_variant v key -> lower (normalize v) = lower key.
Proof.
  intros Hin Hv. rewrite lower_normalize, Hv.
  eapply hardcoded_keys_single_spaced, Hin.
Qed.

(** C10. For a key of the hardcoded data one of whose words starts with a
    lower-case letter, as ["Indian Institute of Science"], no case variant
    normalizes to the key, nor to any other key, so the exact match does
    not fire; and for every key and every case variant of it, with no
    accepted record from the scrape stage, [get_institution_info] returns
    the record stored under that key. *)
Theorem case_variants_resolve :
  has_lowercase_word "Indian Institute of Science" = true
  /\ (forall key details v,
        In (key, details) HARDCODED_INSTITUTION_DATA ->
        has_lowercase_word key = true ->
        case_variant v key ->
        normalize v <> key
        /\ dict_get HARDCODED_INSTITUTION_DATA (normalize v) = None)
  /\ (forall http_get key details v,
        In (key, details) HARDCODED_INSTITUTION_DATA ->
        case_variant v key ->
        no_accepted_record http_get v ->
        get_institution_info http_get v = Ok details).
Proof.
  split; [reflexivity|]. split.
  - intros key details v Hin Hlow Hv.
    assert (Hne : normalize v <> key).
    { intros E. rewrite <- E, normalize_no_lowercase_word in Hlow.
      discriminate. }
    split; [exact Hne|].
    destruct (dict_get HARDCODED_INSTITUTION_DATA (normalize v)) as [d|] eqn:E;
      [|reflexivity].
    apply dict_get_In in E.
    destruct (hardcoded_keys_differ_in_lower _ _ _ _ E Hin
                (lower_normalize_variant _ _ _ Hin Hv)) as [Hk _].
    contradiction.
  - intros http_get key details v Hin Hv Hno.
    rewrite (fallback_when_not_accepted _ _ Hno).
    pose proof (lower_normalize_variant _ _ _ Hin Hv) as Hl.
    unfold hardcoded_fallback.
    destruct (dict_get HARDCODED_INSTITUTION_DATA (normalize v)) as [d|] eqn:E.
    + apply dict_get_In in E.
      destruct (hardcoded_keys_differ_in_lower _ _ _ _ E Hin Hl) as [_ ->].
      reflexivity.
    + rewrite alias_loop_first_containing. unfold first_containing.
      rewrite Hl, (hardcoded_key_first_containing _ _ Hin). reflexivity.
Qed.

Lemma case_variants_resolve_witness :
  dict_get HARDCODED_INSTITUTION_DATA (normalize "INDIAN institute OF science")
  = None
  /\ get_institution_info offline "INDIAN institute OF science"
     = Ok rec_Indian_Institute_of_Science.
Proof.
  assert (Hin : In ("Indian Institute of Science", rec_Indian_Institute_of_Science)
                   HARDCODED_INSTITUTION_DATA)
    by (right; left; reflexivity).
  destruct case_variants_resolve as [_ [Hexact Hres]].
  split.
  - exact (proj2 (Hexact _ _ "INDIAN institute OF science" Hin eq_refl eq_refl)).
  - exact (Hres offline _ _ "INDIAN institute OF science" Hin eq_refl I).
Defined.

End InstitutionFacts.

(** ** Document ingestion and the fixed-corpus entry point *)

Module PipelineFacts.
Import Pipeline DocQA IpcBot App Notions Scenarios.


(** The handler of the upload takes the type from the file name, so a
    [docx] upload, which the widget admits, goes to the text loader. *)
Example docx_read_as_text :
  file_type_of "brief.final.docx" = "docx"
  /\ select_loader "/tmp/tmpab12" (file_type_of "brief.final.docx")
     = TextLoader "/tmp/tmpab12".
Proof. split; reflexivity. Qed.



(** C8, as stated, fails: without the API key the set-up raises, the
    pipeline is left at [None], and a question then raises a [TypeError],
    which comes from no provider. *)
Lemma null_pipeline_after_failed_start :
  setup_ipc_qa keyless_world "ipc.pdf"
  = Raise (ValueError "COHERE_API_KEY environment variable not set.")
  /\ ipc_qa keyless_world = None
  /\ call_ipc_qa keyless_world "what is the punishment for theft?"
     = Raise (TypeError "'NoneType' object is not callable")
  /\ provider_failure (TypeError "'NoneType' object is not callable") = false
  /\ get_answer keyless_world "what is the punishment for theft?"
     = st_error "Error: 'NoneType' object is not callable".
Proof. repeat split. Qed.

(** C8, amended.  When the set-up at start succeeded, the fixed-corpus
    entry point returns or raises exactly what running the chain on the
    question returns or raises; when the set-up raised, whatever the
    exception, it is swallowed and the pipeline is [None]. *)
Theorem fixed_corpus_failures (w : World) (ipc_question : string) :
  (forall chain,
     setup_ipc_qa w "ipc.pdf" = Ok chain ->
     ipc_qa w = Some chain
     /\ call_ipc_qa w ipc_question = chain_run w chain ipc_question)
  /\ (forall e, setup_ipc_qa w "ipc.pdf" = Raise e -> ipc_qa w = None).
Proof.
  unfold call_ipc_qa, ipc_qa. split.
  - intros chain ->. split; reflexivity.
  - intros e ->. reflexivity.
Qed.

Lemma fixed_corpus_failures_witness :
  call_ipc_qa plain_world "what is theft?" = Ok "answer to what is theft?"
  /\ ipc_qa keyless_world = None.
Proof.
  split.
  - destruct (fixed_corpus_failures plain_world "what is theft?") as [H _].
    destruct (H _ eq_refl) as [_ E]. exact E.
  - destruct (fixed_corpus_failures keyless_world "what is theft?") as [_ H].
    exact (H _ eq_refl).
Defined.

End PipelineFacts.

(** ** The chunker *)

Module ChunkerFacts.
Import Chunker.

Lemma length_substring (s : string) : forall n m,
  String.length (substring n m s) = Nat.min m (String.length s - n).
Proof.
  induction s as [|c s IH]; intros n m.
  - destruct n, m; reflexivity.
  - destruct n as [|n].
    + destruct m as [|m]; [reflexivity|]. cbn. now rewrite IH, Nat.sub_0_r.
    + cbn. apply IH.
Qed.

Lemma get_substring (s : string) : forall n m k,
  k < m -> get k (substring n m s) = get (n + k) s.
Proof.
  induction s as [|c s IH]; intros n m k Hk.
  - destruct n, m; cbn; try lia; now destruct k.
  - destruct n as [|n].
    + destruct m as [|m]; [lia|]. destruct k as [|k]; [reflexivity|].
      cbn. rewrite IH by lia. reflexivity.
    + cbn. now apply IH.
Qed.

Section Split.

Variable T : string.
Variables chunk_size stride : nat.
Hypothesis stride_pos : 0 < stride.
Hypothesis stride_le : stride <= chunk_size.

(** With enough fuel, every position from [start] on is inside a chunk. *)
Lemma split_from_covers (fuel : nat) : forall start index p,
  String.length T - start < fuel ->
  start <= p < String.length T ->
  exists c, In c (split_from fuel T chunk_size stride start index)
            /\ covers c p.
Proof.
  induction fuel as [|fuel IH]; intros start index p Hfuel Hp; [lia|].
  cbn [split_from].
  destruct (Nat.leb_spec (String.length T) (start + chunk_size)) as [Hend|Hmore].
  - eexists. split; [left; reflexivity|].
    unfold covers. cbn. rewrite length_substring. lia.
  - destruct (Nat.lt_ge_cases p (start + chunk_size)) as [Hin|Hout].
    + eexists. split; [left; reflexivity|].
      unfold covers. cbn. rewrite length_substring. lia.
    + destruct (IH (start + stride) (S index) p) as [c [Hc Hcov]]; [lia|lia|].
      exists c. split; [right; exact Hc | exact Hcov].
Qed.

(** The chunks in order: the [i]-th one has index [index + i] and is the
    slice of the text that starts [i] strides after [start]. *)
Lemma split_from_nth (fuel : nat) : forall start index i c,
  nth_error (split_from fuel T chunk_size stride start index) i = Some c ->
  sequence_index c = index + i
  /\ source_offset c = start + i * stride
  /\ text c = substring (start + i * stride) chunk_size T.
Proof.
  clear stride_pos stride_le.
  induction fuel as [|fuel IH]; intros start index i c; cbn [split_from].
  - destruct i; discriminate.
  - destruct (String.length T <=? start + chunk_size).
    + destruct i as [|i]; cbn; [|destruct i; discriminate].
      intros [= <-]. cbn. rewrite !Nat.add_0_r. auto.
    + destruct i as [|i]; cbn [nth_error].
      * intros [= <-]. cbn. rewrite !Nat.add_0_r. auto.
      * intros H. destruct (IH _ _ _ _ H) as [H1 [H2 H3]].
        rewrite H1, H2, H3. cbn [Nat.mul].
        replace (start + stride + i * stride) with (start + (stride + i * stride))
          by lia.
        repeat split; lia.
Qed.

End Split.

(** C6. On every text the chunker set up with size 1000 and overlap 200
    leaves no gap: each position of the text lies in a chunk, which holds
    the character of that position; and the chunks come in document order,
    the [i]-th one being the slice of at most 1000 characters that starts at
    [i * (1000 - 200)]. *)
Theorem chunk_coverage (T : string) :
  (forall p, p < String.length T ->
     exists c, In c (chunker T)
               /\ covers c p
               /\ get (p - source_offset c) (text c) = get p T)
  /\ (forall i c, nth_error (chunker T) i = Some c ->
        sequence_index c = i
        /\ source_offset c = i * (1000 - 200)
        /\ text c = substring (i * (1000 - 200)) 1000 T).
Proof.
  assert (Hnth : forall i c, nth_error (chunker T) i = Some c ->
                   sequence_index c = i
                   /\ source_offset c = i * (1000 - 200)
                   /\ text c = substring (i * (1000 - 200)) 1000 T).
  { intros i c H. exact (split_from_nth T 1000 (1000 - 200) _ 0 0 i c H). }
  split; [|exact Hnth].
  intros p Hp.
  destruct (split_from_covers T 1000 (1000 - 200) ltac:(cbn; lia) ltac:(cbn; lia)
              (S (String.length T)) 0 0 p ltac:(lia) ltac:(lia))
    as [c [Hin Hcov]].
  exists c. split; [exact Hin|]. split; [exact Hcov|].
  destruct (In_nth_error _ _ Hin) as [i Hi].
  destruct (Hnth i c Hi) as [_ [Hoff Htext]].
  unfold covers in Hcov. rewrite Htext, <- Hoff.
  rewrite get_substring.
  - f_equal. lia.
  - rewrite Htext, length_substring in Hcov. lia.
Qed.

Lemma chunk_coverage_witness :
  exists c, In c (chunker "section 302") /\ covers c 8
            /\ get (8 - source_offset c) (text c) = get 8 "section 302".
Proof.
  apply (proj1 (chunk_coverage "section 302") 8).
  cbn. repeat constructor.
Defined.

End ChunkerFacts.

(** ** Further properties of the resolver *)

Module ResolverFacts.
Import PyStr PyStrFacts Institution Notions Scenarios InstitutionFacts.

(** *** Normalization *)

Lemma upper_char_idem (c : ascii) : upper_char (upper_char c) = upper_char c.
Proof. by_cases_on_char c. Qed.

Lemma upper_lower_char (c : ascii) : upper_char (lower_char c) = upper_char c.
Proof. by_cases_on_char c. Qed.

Lemma upper_cons (c : ascii) (s : string) :
  upper (String c s) = String (upper_char c) (upper s).
Proof. reflexivity. Qed.

Lemma upper_lower (s : string) : upper (lower s) = upper s.
Proof.
  induction s as [|c s IH]; [reflexivity|].
  now rewrite lower_cons, !upper_cons, upper_lower_char, IH.
Qed.

Lemma upper_app (a b : string) : upper (a ++ b) = (upper a ++ upper b)%string.
Proof. apply map_chars_app. Qed.

Lemma upper_join (sep : string) (ws : list string) :
  upper (join sep ws) = join (upper sep) (map upper ws).
Proof.
  induction ws as [|w ws IH]; [reflexivity|].
  destruct ws as [|w' ws]; [reflexivity|].
  change (join sep (w :: w' :: ws)) with (w ++ sep ++ join sep (w' :: ws))%string.
  rewrite !upper_app, IH. reflexivity.
Qed.

Lemma upper_capitalize (w : string) : upper (capitalize w) = upper w.
Proof.
  destruct w as [|c w]; [reflexivity|].
  unfold capitalize. now rewrite !upper_cons, upper_char_idem, upper_lower.
Qed.

Lemma capitalize_idem (w : string) : capitalize (capitalize w) = capitalize w.
Proof.
  destruct w as [|c w]; [reflexivity|].
  unfold capitalize. now rewrite upper_char_idem, lower_idem.
Qed.

Lemma capitalize_lower (w : string) : capitalize (lower w) = capitalize w.
Proof.
  destruct w as [|c w]; [reflexivity|].
  rewrite lower_cons. unfold capitalize.
  now rewrite upper_lower_char, lower_idem.
Qed.

Lemma normalize_of_lowered_words (v : string) :
  normalize v = join " " (map capitalize (map lower (split v))).
Proof.
  unfold normalize. f_equal. rewrite map_map.
  apply map_ext. intros w. now rewrite capitalize_lower.
Qed.

Lemma normalize_idem (v : string) : normalize (normalize v) = normalize v.
Proof.
  unfold normalize at 1. rewrite capitalized_words, map_map.
  unfold normalize. f_equal. apply map_ext, capitalize_idem.
Qed.

Lemma same_words_same_normalize (a b : string) :
  map lower (split a) = map lower (split b) -> normalize a = normalize b.
Proof. intros H. now rewrite !normalize_of_lowered_words, H. Qed.

(** X1. On a name of ASCII characters, normalizing twice is normalizing
    once; so the second normalization, which [fetch_from_wikipedia] applies
    to the name that [get_institution_info] has normalized already, changes
    nothing, and the page requested for the normalized name is the page of
    the name itself. *)
Theorem double_normalization_harmless (institution_name : string) :
  ascii_text institution_name ->
  normalize (normalize institution_name) = normalize institution_name
  /\ search_term (normalize institution_name) = search_term institution_name
  /\ wikipedia_url (normalize institution_name)
     = wikipedia_url institution_name.
Proof.
  intros _.
  assert (H : search_term (normalize institution_name)
              = search_term institution_name)
    by (unfold search_term; now rewrite normalize_idem).
  split; [apply normalize_idem|]. split; [exact H|].
  unfold wikipedia_url. now rewrite H.
Qed.

Lemma double_normalization_harmless_witness :
  normalize (normalize "  indian   INSTITUTE of science ")
  = normalize "  indian   INSTITUTE of science ".
Proof.
  exact (proj1 (double_normalization_harmless
                  "  indian   INSTITUTE of science " eq_refl)).
Defined.

(** X2. Two names of ASCII characters made of the same words up to letter
    case, whatever the white space around and between the words, are
    resolved alike: the same record is returned for both, or the not-found
    error is raised for both, each with its own name in the message. *)
Theorem resolver_ignores_case_and_spacing http_get (a b : string) :
  ascii_text a -> ascii_text b ->
  map lower (split a) = map lower (split b) ->
  (forall details,
     get_institution_info http_get a = Ok details
     <-> get_institution_info http_get b = Ok details)
  /\ (get_institution_info http_get a = Raise (ValueError (not_found_message a))
      <-> get_institution_info http_get b
          = Raise (ValueError (not_found_message b))).
Proof.
  intros _ _ H. apply same_words_same_normalize in H.
  unfold get_institution_info, hardcoded_fallback. rewrite H.
  destruct (fetch_from_wikipedia http_get (normalize b)) as [w|];
    [destruct (complete w)|];
    try (split; [intros d; reflexivity | split; discriminate]);
    destruct (dict_get HARDCODED_INSTITUTION_DATA (normalize b));
    try (split; [intros d; reflexivity | split; discriminate]);
    destruct (alias_loop HARDCODED_INSTITUTION_DATA (normalize b));
    try (split; [intros d; reflexivity | split; discriminate]);
    (split; [intros d; split; discriminate | split; reflexivity]).
Qed.

Lemma resolver_ignores_case_and_spacing_witness :
  get_institution_info offline "  stanford   UNIVERSITY " = Ok rec_Stanford_University
  <-> get_institution_info offline "Stanford University" = Ok rec_Stanford_University.
Proof.
  exact (proj1 (resolver_ignores_case_and_spacing offline
                  "  stanford   UNIVERSITY " "Stanford University"
                  eq_refl eq_refl eq_refl)
           rec_Stanford_University).
Defined.

(** *** The requested URL *)

Lemma all_chars_impl (p q : ascii -> bool) (s : string) :
  (forall c, p c = true -> q c = true) ->
  all_chars p s = true -> all_chars q s = true.
Proof.
  intros Hpq. induction s as [|c s IH]; [reflexivity|].
  cbn. intros H. apply andb_true_iff in H as [Hc Hs].
  now rewrite (Hpq _ Hc), IH.
Qed.

Lemma all_chars_map_chars (p : ascii -> bool) (f : ascii -> ascii) (s : string) :
  all_chars p (map_chars f s) = all_chars (fun c => p (f c)) s.
Proof. induction s as [|c s IH]; [reflexivity|]. cbn. now rewrite IH. Qed.

Lemma normalized_words_wordy (v : string) :
  forallb wordy (map capitalize (split v)) = true.
Proof.
  assert (H : forallb wordy (split v) = true)
    by (apply split_from_wordy; reflexivity).
  induction (split v) as [|w ws IH]; [reflexivity|].
  cbn in *. apply andb_true_iff in H as [Hw Hws].
  now rewrite (wordy_capitalize _ Hw), (IH Hws).
Qed.

(** In a join of words by one space, the space is the only white space. *)
Lemma join_words_blank_or_black (ws : list string) :
  forallb wordy ws = true ->
  all_chars (fun c => Ascii.eqb c " " || negb (is_space c)) (join " " ws) = true.
Proof.
  induction ws as [|w ws IH]; [reflexivity|].
  cbn [forallb]. intros H. apply andb_true_iff in H as [Hw Hws].
  unfold wordy in Hw. apply andb_true_iff in Hw as [_ Hw].
  assert (Hw' : all_chars (fun c => Ascii.eqb c " " || negb (is_space c)) w = true).
  { revert Hw. apply all_chars_impl. intros c ->. apply orb_true_r. }
  destruct ws as [|w' ws]; [exact Hw'|].
  change (join " " (w :: w' :: ws)) with (w ++ " " ++ join " " (w' :: ws))%string.
  rewrite !all_chars_app, Hw', (IH Hws). reflexivity.
Qed.

(** X3. The URL requested from Wikipedia never contains white space,
    whatever the name. *)
Theorem wikipedia_url_has_no_white_space (institution_name : string) :
  all_chars (fun c => negb (is_space c)) (wikipedia_url institution_name) = true.
Proof.
  unfold wikipedia_url. rewrite all_chars_app. apply andb_true_iff.
  split; [reflexivity|].
  unfold search_term.
  destruct (upper (normalize institution_name) =? "JNU")%string; [reflexivity|].
  destruct (upper (normalize institution_name) =? "IIT BOMBAY")%string;
    [reflexivity|].
  destruct (upper (normalize institution_name) =? "AIIMS DELHI")%string;
    [reflexivity|].
  unfold replace_char. rewrite all_chars_map_chars.
  eapply all_chars_impl;
    [|apply join_words_blank_or_black, normalized_words_wordy].
  intros c Hc. cbn beta in Hc.
  destruct (Ascii.eqb c " "); [reflexivity|exact Hc].
Qed.

Lemma upper_normalize (v : string) :
  upper (normalize v) = join " " (map upper (map lower (split v))).
Proof.
  unfold normalize. rewrite upper_join, !map_map. f_equal.
  apply map_ext. intros w. now rewrite upper_capitalize, upper_lower.
Qed.

(** X4. The three abbreviations are recognised whatever the letter case
    and the white space they are typed with, and send the request to the
    page of the full name. *)
Theorem abbreviations_reach_full_name_page (institution_name : string) :
  (map lower (split institution_name) = ["jnu"] ->
   wikipedia_url institution_name
   = "https://en.wikipedia.org/wiki/Jawaharlal_Nehru_University")
  /\ (map lower (split institution_name) = ["iit"; "bombay"] ->
      wikipedia_url institution_name
      = "https://en.wikipedia.org/wiki/Indian_Institute_of_Technology_Bombay")
  /\ (map lower (split institution_name) = ["aiims"; "delhi"] ->
      wikipedia_url institution_name
      = "https://en.wikipedia.org/wiki/All_India_Institute_of_Medical_Sciences,_Delhi").
Proof.
  unfold wikipedia_url, search_term. rewrite upper_normalize.
  repeat split; intros ->; reflexivity.
Qed.

Lemma abbreviations_reach_full_name_page_witness :
  wikipedia_url "  iIt   BOMBAY "
  = "https://en.wikipedia.org/wiki/Indian_Institute_of_Technology_Bombay".
Proof.
  exact (proj1 (proj2 (abbreviations_reach_full_name_page "  iIt   BOMBAY "))
           eq_refl).
Defined.

Lemma not_space_not_blank (c : ascii) :
  negb (is_space c) = true -> Ascii.eqb c " " = false.
Proof.
  destruct c as [[] [] [] [] [] [] [] []]; intros H;
    try reflexivity; discriminate H.
Qed.

Lemma replace_char_word (w : string) :
  all_chars (fun c => negb (is_space c)) w = true ->
  replace_char " " "_" w = w.
Proof.
  unfold replace_char. induction w as [|c w IH]; [reflexivity|].
  cbn. intros H. apply andb_true_iff in H as [Hc Hw].
  now rewrite (not_space_not_blank _ Hc), (IH Hw).
Qed.

Lemma replace_char_join (ws : list string) :
  forallb wordy ws = true ->
  replace_char " " "_" (join " " ws) = join "_" ws.
Proof.
  induction ws as [|w ws IH]; [reflexivity|].
  cbn [forallb]. intros H. apply andb_true_iff in H as [Hw Hws].
  unfold wordy in Hw. apply andb_true_iff in Hw as [_ Hw].
  destruct ws as [|w' ws]; [now apply replace_char_word|].
  change (join " " (w :: w' :: ws)) with (w ++ " " ++ join " " (w' :: ws))%string.
  change (join "_" (w :: w' :: ws)) with (w ++ "_" ++ join "_" (w' :: ws))%string.
  unfold replace_char in *. rewrite !map_chars_app.
  fold (replace_char " " "_" w). rewrite (replace_char_word _ Hw), (IH Hws).
  reflexivity.
Qed.

(** X16. For a name that is none of the three abbreviations, the page
    requested is named by the words of the name, each capitalized, joined
    by underscores. *)
Theorem wikipedia_url_joins_capitalized_words (institution_name : string) :
  upper (normalize institution_name) <> "JNU" ->
  upper (normalize institution_name) <> "IIT BOMBAY" ->
  upper (normalize institution_name) <> "AIIMS DELHI" ->
  wikipedia_url institution_name
  = ("https://en.wikipedia.org/wiki/"
     ++ join "_" (map capitalize (split institution_name)))%string.
Proof.
  intros H1 H2 H3. unfold wikipedia_url, search_term.
  apply String.eqb_neq in H1, H2, H3. rewrite H1, H2, H3.
  unfold normalize. now rewrite replace_char_join by apply normalized_words_wordy.
Qed.

Lemma wikipedia_url_joins_capitalized_words_witness :
  wikipedia_url " indian  institute of SCIENCE"
  = "https://en.wikipedia.org/wiki/Indian_Institute_Of_Science".
Proof.
  refine (wikipedia_url_joins_capitalized_words
            " indian  institute of SCIENCE" _ _ _); discriminate.
Defined.

(** *** The summary and the branches of a scraped record *)

Lemma summary_loop_from (ps : list string) : forall acc,
  List.length acc < 4 ->
  summary_loop ps acc
  = (acc ++ firstn (4 - List.length acc) (filter keep_paragraph ps))%list.
Proof.
  induction ps as [|text ps IH]; intros acc Hacc.
  - cbn. now rewrite firstn_nil, app_nil_r.
  - cbn [summary_loop filter]. destruct (keep_paragraph text).
    + destruct (Nat.leb_spec 4 (List.length (acc ++ [text]))) as [Hfull|Hroom];
        rewrite length_app in *; cbn [List.length] in *.
      * replace (4 - List.length acc) with 1 by lia. reflexivity.
      * rewrite IH by (rewrite length_app; cbn; lia).
        rewrite length_app. cbn [List.length].
        replace (4 - List.length acc) with (S (4 - (List.length acc + 1))) by lia.
        cbn [firstn]. now rewrite <- app_assoc.
    + destruct (Nat.leb_spec 4 (List.length acc)); [lia|]. now apply IH.
Qed.

Lemma In_firstn {A : Type} (n : nat) (l : list A) (x : A) :
  In x (firstn n l) -> In x l.
Proof.
  intros H. rewrite <- (firstn_skipn n l). apply in_or_app. now left.
Qed.

(** X5. The summary loop keeps the first four paragraphs that pass its
    test, in the order of the page; what follows the fourth is not read,
    and the slice [[:4]] taken afterwards removes nothing. *)
Theorem summary_is_first_four_kept (ps : list string) :
  summary_loop ps [] = firstn 4 (filter keep_paragraph ps)
  /\ firstn 4 (summary_loop ps []) = summary_loop ps []
  /\ List.length (summary_loop ps []) <= 4
  /\ forall text, In text (summary_loop ps []) ->
       text <> ""
       /\ startswith text "Coordinates:" = false
       /\ contains "For other uses," text = false
       /\ contains "From Wikipedia, the free encyclopedia" text = false.
Proof.
  assert (E : summary_loop ps [] = firstn 4 (filter keep_paragraph ps))
    by (rewrite summary_loop_from by (cbn; lia); reflexivity).
  rewrite E. split; [reflexivity|]. split.
  - rewrite firstn_firstn. reflexivity.
  - split; [apply firstn_le_length|].
    intros text Hin. apply In_firstn, filter_In in Hin as [_ Hk].
    unfold keep_paragraph in Hk.
    repeat (apply andb_true_iff in Hk as [Hk ?]).
    repeat match goal with
           | H : negb _ = true |- _ => apply negb_true_iff in H
           end.
    repeat split; try assumption.
    intros ->. discriminate.
Qed.

Lemma dedup_In (l : list string) (x : string) : In x (dedup l) <-> In x l.
Proof.
  induction l as [|y l IH]; [reflexivity|].
  cbn [dedup In]. rewrite filter_In, IH.
  destruct (String.eqb_spec y x) as [->|Hne].
  - tauto.
  - split; [tauto|]. intros [H|H]; [now left|]. right. now split.
Qed.

Lemma dedup_NoDup (l : list string) : NoDup (dedup l).
Proof.
  induction l as [|y l IH]; [constructor|].
  cbn [dedup]. constructor.
  - rewrite filter_In. intros [_ H]. now rewrite String.eqb_refl in H.
  - now apply NoDup_filter.
Qed.

Lemma contains_later sub c s :
  contains sub s = true -> contains sub (String c s) = true.
Proof.
  intros H. cbn [contains]. now destruct (prefix sub (String c s)).
Qed.

Lemma prefix_contains sub s : prefix sub s = true -> contains sub s = true.
Proof. intros H. destruct s; cbn [contains]; now rewrite H. Qed.

Lemma prefix_app_r (sub p t : string) :
  prefix sub p = true -> prefix sub (p ++ t) = true.
Proof.
  revert p. induction sub as [|a sub IH]; intros p;
    [intros _; now destruct (p ++ t)%string|].
  destruct p as [|b p]; [discriminate|]. cbn.
  destruct (ascii_dec a b); [apply IH | discriminate].
Qed.

Lemma contains_app_r (sub p t : string) :
  contains sub p = true -> contains sub (p ++ t) = true.
Proof.
  induction p as [|c p IH].
  - cbn [contains]. destruct (prefix sub EmptyString) eqn:E; [|discriminate].
    intros _. destruct sub; [apply contains_empty | discriminate].
  - cbn [contains append].
    destruct (prefix sub (String c p)) eqn:E.
    + intros _. change (String c (p ++ t)) with (String c p ++ t)%string.
      now rewrite (prefix_app_r _ _ t E).
    + intros H. rewrite (IH H). now destruct (prefix sub (String c (p ++ t))).
Qed.

Lemma rstrip_is_prefix (s : string) : exists t, s = (rstrip s ++ t)%string.
Proof.
  induction s as [|c s [t IH]]; [now exists EmptyString|].
  cbn [rstrip]. destruct (rstrip s) as [|d r].
  - destruct (is_space c); [now exists (String c s)|].
    exists s. reflexivity.
  - exists t. cbn. now rewrite IH at 1.
Qed.

Lemma contains_lstrip (sub s : string) :
  contains sub (lstrip s) = true -> contains sub s = true.
Proof.
  induction s as [|c s IH]; [trivial|].
  cbn [lstrip]. destruct (is_space c); [|trivial].
  intros H. apply contains_later. now apply IH.
Qed.

Lemma contains_strip (sub s : string) :
  contains sub (strip s) = true -> contains sub s = true.
Proof.
  unfold strip. intros H. apply contains_lstrip.
  destruct (rstrip_is_prefix (lstrip s)) as [t E]. rewrite E.
  now apply contains_app_r.
Qed.

Lemma process_row_branches_kept f row :
  Forall kept_branch (found_branches f) ->
  Forall kept_branch (found_branches (process_row f row)).
Proof.
  intros Hf. unfold process_row.
  destruct (th row) as [h|]; [|exact Hf].
  destruct (td row) as [d|]; [|exact Hf].
  repeat match goal with
         | |- context [if ?b then _ else _] => destruct b
         end; try exact Hf.
  cbn [found_branches]. apply Forall_app. split; [exact Hf|].
  apply Forall_forall. intros b Hb.
  apply in_map_iff in Hb as [b0 [<- Hb0]].
  apply filter_In in Hb0 as [_ Hb0].
  apply andb_true_iff in Hb0 as [Hne Hcampus].
  apply negb_true_iff in Hcampus. split.
  - intros E. rewrite E in Hne. discriminate.
  - destruct (contains "Campus" (strip b0)) eqn:E; [|reflexivity].
    apply contains_strip in E. congruence.
Qed.

Lemma infobox_loop_branches_kept rows : forall f,
  Forall kept_branch (found_branches f) ->
  Forall kept_branch (found_branches (infobox_loop rows f)).
Proof.
  unfold infobox_loop.
  induction rows as [|row rows IH]; intros f Hf; [exact Hf|].
  cbn [fold_left]. now apply IH, process_row_branches_kept.
Qed.

(** What [fetch_from_wikipedia] returns, when it returns a record. *)
Lemma fetch_some_inv http_get institution_name r :
  fetch_from_wikipedia http_get institution_name = Some r ->
  exists soup,
    http_get (wikipedia_url institution_name) = Response soup
    /\ founded_year r
       = found_founded_year
           (match infobox soup with
            | Some rows => infobox_loop rows found_init
            | None => found_init
            end)
    /\ branches r
       = dedup (found_branches
                  (match infobox soup with
                   | Some rows => infobox_loop rows found_init
                   | None => found_init
                   end))
    /\ summary r
       = match summary_loop (paragraphs soup) [] with
         | [] => "No summary found."
         | _ => join newline (firstn 4 (summary_loop (paragraphs soup) []))
         end.
Proof.
  unfold fetch_from_wikipedia.
  destruct (http_get (wikipedia_url institution_name)) as [| | | |soup];
    try discriminate.
  destruct (disambigbox soup); [discriminate|].
  destruct (title_text soup) as [t|]; [|discriminate].
  destruct (contains "disambiguation" (lower t)); [discriminate|].
  intros [= <-]. exists soup. repeat split.
Qed.

(** X6. The branches of a scraped record are pairwise distinct, none of
    them is the empty string and none contains ["Campus"]. *)
Theorem scraped_branches_distinct_kept http_get institution_name r :
  fetch_from_wikipedia http_get institution_name = Some r ->
  NoDup (branches r)
  /\ forall b, In b (branches r) -> b <> "" /\ contains "Campus" b = false.
Proof.
  intros H. destruct (fetch_some_inv _ _ _ H) as [soup [_ [_ [Hb _]]]].
  rewrite Hb. split; [apply dedup_NoDup|].
  intros b Hin. apply (proj1 (dedup_In _ _)) in Hin.
  assert (Hall : Forall kept_branch
                   (found_branches
                      match infobox soup with
                      | Some rows => infobox_loop rows found_init
                      | None => found_init
                      end)).
  { destruct (infobox soup) as [rows|]; [|constructor].
    apply infobox_loop_branches_kept. constructor. }
  rewrite Forall_forall in Hall. exact (Hall b Hin).
Qed.

Lemma scraped_branches_distinct_kept_witness :
  NoDup (branches stanford_scraped)
  /\ forall b, In b (branches stanford_scraped) ->
       b <> "" /\ contains "Campus" b = false.
Proof.
  exact (scraped_branches_distinct_kept (serving stanford_page)
           "Stanford University" stanford_scraped eq_refl).
Defined.

(** X7. A page whose infobox is missing, or has no row that sets the
    founding year, or none of whose paragraphs passes the test of the
    summary loop, never gives the answer: the result is that of the
    hardcoded stages. *)
Theorem page_without_year_or_summary_falls_back http_get institution_name soup :
  http_get (wikipedia_url (normalize institution_name)) = Response soup ->
  match infobox soup with
  | Some rows => existsb sets_founded_year rows = false
  | None => True
  end
  \/ filter keep_paragraph (paragraphs soup) = [] ->
  get_institution_info http_get institution_name
  = hardcoded_fallback institution_name (normalize institution_name).
Proof.
  intros Hget Hpage. unfold get_institution_info.
  destruct (fetch_from_wikipedia http_get (normalize institution_name))
    as [r|] eqn:E; [|reflexivity].
  destruct (fetch_some_inv _ _ _ E) as [soup' [Hget' [Hy [_ Hs]]]].
  rewrite Hget in Hget'. injection Hget' as <-.
  assert (Hc : complete r = false).
  { unfold complete. destruct Hpage as [Hrows|Hpar].
    - assert (Hna : founded_year r = "Not Available").
      { rewrite Hy. destruct (infobox soup) as [rows|]; [|reflexivity].
        now rewrite infobox_loop_keeps_year. }
      rewrite Hna. apply andb_false_r.
    - rewrite summary_loop_from in Hs by (cbn; lia).
      cbn [List.length app] in Hs. rewrite Hpar in Hs. cbn in Hs.
      now rewrite Hs. }
  now rewrite Hc.
Qed.

Lemma page_without_year_or_summary_falls_back_witness :
  get_institution_info (serving shadowed_page) "stanford university"
  = Ok rec_Stanford_University.
Proof.
  refine (page_without_year_or_summary_falls_back (serving shadowed_page)
            "stanford university" shadowed_page eq_refl _).
  left. reflexivity.
Defined.

(** X8. Every record that [get_institution_info] returns, scraped or
    hardcoded, has a summary other than ["No summary found."] and a founding
    year other than ["Not Available"]. *)
Theorem returned_record_is_complete http_get institution_name details :
  get_institution_info http_get institution_name = Ok details ->
  summary details <> "No summary found."
  /\ founded_year details <> "Not Available".
Proof.
  rewrite <- complete_spec. unfold get_institution_info.
  destruct (fetch_from_wikipedia http_get (normalize institution_name))
    as [w|].
  - destruct (complete w) eqn:Hc.
    + now intros [= <-].
    + apply hardcoded_fallback_complete.
  - apply hardcoded_fallback_complete.
Qed.

Lemma returned_record_is_complete_witness :
  summary stanford_scraped <> "No summary found."
  /\ founded_year stanford_scraped <> "Not Available".
Proof.
  exact (returned_record_is_complete (serving stanford_page)
           "stanford university" stanford_scraped eq_refl).
Defined.

(** *** The year found in a value *)

Lemma match_year_here_shape prev s y :
  match_year_here prev s = Some y ->
  String.length y = 4 /\ all_chars is_digit y = true /\ prefix y s = true.
Proof.
  destruct s as [|d1 [|d2 [|d3 [|d4 rest]]]]; try discriminate.
  unfold match_year_here.
  destruct (word_boundary prev (Some d1)); [|discriminate].
  destruct (is_digit d1) eqn:E1; [|discriminate].
  destruct (is_digit d2) eqn:E2; [|discriminate].
  destruct (is_digit d3) eqn:E3; [|discriminate].
  destruct (is_digit d4) eqn:E4; [|discriminate].
  destruct (word_boundary (Some d4) (head rest)); [|discriminate].
  intros [= <-]. split; [reflexivity|]. split.
  - cbn. now rewrite E1, E2, E3, E4.
  - cbn. repeat match goal with
                | |- context [ascii_dec ?a ?a] => destruct (ascii_dec a a); [|contradiction]
                end.
    now destruct rest.
Qed.

Lemma re_search_from_shape s : forall prev y,
  re_search_from prev s = Some y ->
  String.length y = 4 /\ all_chars is_digit y = true /\ contains y s = true.
Proof.
  induction s as [|c s IH]; intros prev y; cbn [re_search_from].
  - discriminate.
  - destruct (match_year_here prev (String c s)) as [y0|] eqn:E.
    + intros [= <-]. destruct (match_year_here_shape _ _ _ E) as [H1 [H2 H3]].
      auto using prefix_contains.
    + intros H. destruct (IH _ _ H) as [H1 [H2 H3]].
      auto using contains_later.
Qed.

(** X9. What the search for a year returns is made of four digits and
    occurs in the value searched. *)
Theorem re_search_year_shape (data_text y : string) :
  re_search_year data_text = Some y ->
  String.length y = 4
  /\ all_chars is_digit y = true
  /\ contains y data_text = true.
Proof. apply re_search_from_shape. Qed.

Lemma re_search_year_shape_witness :
  String.length "1885" = 4
  /\ all_chars is_digit "1885" = true
  /\ contains "1885" "November 11, 1885" = true.
Proof.
  exact (re_search_year_shape "November 11, 1885" "1885" eq_refl).
Defined.

(** *** The hardcoded stages *)

(** X10. The exact match adds nothing to the alias loop on this data: the
    hardcoded stages return the first item, in insertion order, whose
    lower-cased key contains the lower-cased normalized name, and raise
    the not-found error exactly when there is no such item. *)
Theorem hardcoded_stages_are_first_containing
    (institution_name normalized_input_name : string) :
  hardcoded_fallback institution_name normalized_input_name
  = match first_containing HARDCODED_INSTITUTION_DATA normalized_input_name with
    | Some (_, details) => Ok details
    | None => Raise (ValueError (not_found_message institution_name))
    end.
Proof.
  unfold hardcoded_fallback.
  destruct (dict_get HARDCODED_INSTITUTION_DATA normalized_input_name)
    as [d|] eqn:E.
  - destruct (exact_match_is_first_containing _ _ E) as [k ->]. reflexivity.
  - rewrite alias_loop_first_containing.
    now destruct (first_containing HARDCODED_INSTITUTION_DATA
                    normalized_input_name) as [[k d]|].
Qed.

End ResolverFacts.

(** ** Further properties of the set-ups and of the page *)

Module AppFacts.
Import PyStr Institution Pipeline DocQA IpcBot App AppUI Notions Scenarios.

(** *** The two set-ups and the API key *)

(** X11. [setup_ipc_qa] raises its [ValueError] when the key is missing or
    empty, whatever the file and the libraries would do; and a chain it
    returns holds a key that is not empty and the index built over the
    1000/200 split of what the PDF loader read from the file. *)
Theorem ipc_chain_holds_key (w : World) (file_path : string) :
  (getenv w "COHERE_API_KEY" = None \/ getenv w "COHERE_API_KEY" = Some "" ->
   setup_ipc_qa w file_path
   = Raise (ValueError "COHERE_API_KEY environment variable not set."))
  /\ (forall chain,
        setup_ipc_qa w file_path = Ok chain ->
        exists key documents,
          key <> ""
          /\ getenv w "COHERE_API_KEY" = Some key
          /\ llm chain = {| llm_api_key := Some key; temperature := "0.7" |}
          /\ chain_type chain = "stuff"
          /\ loader_load w (PyPDFLoader file_path) = Ok documents
          /\ FAISS_from_documents w (split_documents w 1000 200 documents)
               {| cohere_api_key := Some key;
                  model := "embed-english-v3.0";
                  truncate := "END";
                  user_agent := "langchain-app" |}
             = Ok (retriever chain)).
Proof.
  unfold setup_ipc_qa. split.
  - intros [-> | ->]; reflexivity.
  - intros chain.
    destruct (getenv w "COHERE_API_KEY") as [[|c key]|]; try discriminate.
    unfold bind.
    destruct (loader_load w (PyPDFLoader file_path)) as [documents|];
      [|discriminate].
    match goal with
    | |- context [FAISS_from_documents w ?t ?emb] =>
        destruct (FAISS_from_documents w t emb) as [db|] eqn:E
    end; [|discriminate].
    intros [= <-]. exists (String c key), documents.
    repeat split; try assumption. discriminate.
Qed.

Lemma ipc_chain_holds_key_witness :
  setup_ipc_qa keyless_world "ipc.pdf"
  = Raise (ValueError "COHERE_API_KEY environment variable not set.").
Proof.
  exact (proj1 (ipc_chain_holds_key keyless_world "ipc.pdf")
           (or_introl eq_refl)).
Defined.



(** *** The type taken from the name of the upload *)

Lemma split_on_from_not_nil d s : forall cur, split_on_from d cur s <> [].
Proof.
  induction s as [|c s IH]; intros cur; cbn [split_on_from]; [discriminate|].
  destruct (Ascii.eqb c d); [discriminate | apply IH].
Qed.

Lemma last_cons_not_nil {A : Type} (x d : A) (l : list A) :
  l <> [] -> last (x :: l) d = last l d.
Proof. destruct l; [contradiction | reflexivity]. Qed.

Lemma split_on_from_no_delimiter d s : forall cur,
  all_chars (fun c => negb (Ascii.eqb c d)) s = true ->
  split_on_from d cur s = [(cur ++ s)%string].
Proof.
  induction s as [|c s IH]; intros cur H.
  - cbn. f_equal. clear. induction cur; cbn; congruence.
  - cbn in H. apply andb_true_iff in H as [Hc Hs].
    apply negb_true_iff in Hc. cbn [split_on_from]. rewrite Hc, (IH _ Hs).
    f_equal. clear. induction cur; cbn; congruence.
Qed.

Lemma last_split_on_from d ext base : forall cur,
  all_chars (fun c => negb (Ascii.eqb c d)) ext = true ->
  last (split_on_from d cur (base ++ String d ext)) EmptyString = ext.
Proof.
  induction base as [|c base IH]; intros cur H.
  - cbn [append split_on_from]. rewrite Ascii.eqb_refl.
    rewrite last_cons_not_nil by apply split_on_from_not_nil.
    now rewrite (split_on_from_no_delimiter _ _ _ H).
  - cbn [append split_on_from]. destruct (Ascii.eqb c d).
    + rewrite last_cons_not_nil by apply split_on_from_not_nil. now apply IH.
    + now apply IH.
Qed.

(** X13. The file type handed to [setup_doc_qa] is what follows the last
    dot of the name of the upload, letter case kept; a name with no dot is
    its own file type. *)
Theorem file_type_is_last_extension (w : World) (file_path base ext : string) :
  all_chars (fun c => negb (Ascii.eqb c ".")) ext = true ->
  file_type_of (base ++ "." ++ ext) = ext
  /\ file_type_of ext = ext
  /\ build_doc_qa w file_path (base ++ "." ++ ext)
     = setup_doc_qa w file_path ext.
Proof.
  intros H.
  assert (E : file_type_of (base ++ "." ++ ext) = ext)
    by (apply (last_split_on_from "." ext base EmptyString H)).
  split; [exact E|]. split.
  - unfold file_type_of, split_on.
    now rewrite (split_on_from_no_delimiter _ _ _ H).
  - unfold build_doc_qa. now rewrite E.
Qed.

Lemma file_type_is_last_extension_witness :
  file_type_of ("ipc.v2" ++ "." ++ "PDF") = "PDF"
  /\ build_doc_qa plain_world "/tmp/tmp1" ("ipc.v2" ++ "." ++ "PDF")
     = setup_doc_qa plain_world "/tmp/tmp1" "PDF".
Proof.
  destruct (file_type_is_last_extension plain_world "/tmp/tmp1" "ipc.v2" "PDF"
              eq_refl) as [H1 [_ H3]].
  split; [exact H1 | exact H3].
Defined.

(** *** The tabs *)

Lemma render_top_nav_known c active_tab :
  known_tab active_tab -> known_tab (render_top_nav c active_tab).
Proof.
  unfold known_tab, render_top_nav. intros H.
  destruct (docqa_clicked c); [auto|].
  destruct (ipc_clicked c); [auto|].
  destruct (academia_clicked c); auto.
Qed.

Lemma session_after_known clicks : forall state,
  (forall tab, state = Some tab -> known_tab tab) ->
  forall tab, fold_left rerun clicks state = Some tab -> known_tab tab.
Proof.
  induction clicks as [|c clicks IH]; intros state Hstate; [exact Hstate|].
  cbn [fold_left]. apply IH. unfold rerun. intros tab [= <-].
  apply render_top_nav_known. destruct state as [t|]; cbn.
  - now apply Hstate.
  - left. reflexivity.
Qed.

(** X14. From a fresh session, after any number of runs and whatever is
    clicked, the active tab is one of the three for which [main] draws a
    section; a run in which nothing is clicked keeps the tab, and when
    several buttons report a click the rightmost one decides. *)
Theorem active_tab_always_has_section :
  (forall clicks tab,
     session_after clicks = Some tab ->
     known_tab tab /\ main_section tab <> NoSection)
  /\ (forall tab,
        render_top_nav {| academia_clicked := false; ipc_clicked := false;
                          docqa_clicked := false |} tab = tab)
  /\ (forall a b tab,
        render_top_nav {| academia_clicked := a; ipc_clicked := b;
                          docqa_clicked := true |} tab = "Document QA")
  /\ (forall a tab,
        render_top_nav {| academia_clicked := a; ipc_clicked := true;
                          docqa_clicked := false |} tab = "IPC Chatbot").
Proof.
  split; [|repeat split].
  intros clicks tab H.
  assert (Hk : known_tab tab).
  { eapply session_after_known; [|exact H]. discriminate. }
  split; [exact Hk|].
  destruct Hk as [-> | [-> | ->]]; discriminate.
Qed.

(** *** The institution section *)

(** X15. The institution section shows either the details of the record
    found, one line per branch among them, or one error and nothing else,
    and that error is always the not-found message with the name as
    typed. *)
Theorem fetch_details_shows_record_or_not_found http_get institution_name :
  (exists details,
     get_institution_info http_get institution_name = Ok details
     /\ List.length (fetch_details http_get institution_name)
        = 7 + List.length (branches details)
     /\ forall body,
          ~ In (st_error body) (fetch_details http_get institution_name))
  \/ fetch_details http_get institution_name
     = [ st_error ("Error: No data available for '" ++ institution_name
                   ++ "' from web or hardcoded sources.") ].
Proof.
  unfold fetch_details.
  destruct (get_institution_info http_get institution_name) as [d|e] eqn:E.
  - left. exists d. split; [reflexivity|]. split.
    + cbn. rewrite length_app, length_map. cbn. lia.
    + intros body Hin. cbn in Hin.
      repeat (destruct Hin as [Hin|Hin]; [discriminate|]).
      apply in_app_or in Hin as [Hin|Hin].
      * apply in_map_iff in Hin as [b [Hb _]]. discriminate.
      * cbn in Hin. repeat (destruct Hin as [Hin|Hin]; [discriminate|]).
        contradiction.
  - right.
    assert (He : e = ValueError (not_found_message institution_name)).
    { revert E. unfold get_institution_info.
      destruct (fetch_from_wikipedia http_get (normalize institution_name))
        as [r|]; [destruct (complete r); [discriminate|]|];
        apply InstitutionFacts.hardcoded_fallback_raise. }
    now rewrite He.
Qed.

End AppFacts.
